(** * HardwareObserverCharm (src/charm.py): the status-reconciliation handlers

    A shallow embedding of the charm's event handlers.  The handlers are
    Python methods that read persisted flags, call external gateways
    (tool helper, exporter service, redfish client), may raise, and write
    the unit status.  They are embedded in a state-and-exception monad over
    a [World]; every call to an external collaborator is appended to the
    world's trace and answered by an oracle of the environment. *)

From Stdlib Require Import List String Ascii ZArith Bool Lia.
Import ListNotations.
Local Open Scope string_scope.
Local Open Scope Z_scope.
Set Warnings "-register-all".

(** ** Exceptions *)

(** Python exceptions the handlers meet.  [ExporterError] carries its
    message and the [__cause__] set by [raise ... from err].
    [BaseOnly] stands for the exceptions that derive from [BaseException]
    but not from [Exception] (KeyboardInterrupt, SystemExit): a clause
    [except Exception] does not catch them. *)
Inductive exn : Type :=
| ExporterError (msg : string) (cause : option exn)
| InvalidCredentialsError (msg : string)
| OtherException (name : string)
| BaseOnly (name : string).

(** [isinstance(e, Exception)].
    Modelled from the spec: [service.ExporterError] is not under src/; it is
    the fatal condition of the restart supervisor, an ordinary error class. *)
Definition is_Exception (e : exn) : bool :=
  match e with
  | BaseOnly _ => false
  | _ => true
  end.

(** [isinstance(e, InvalidCredentialsError)]. *)
Definition is_InvalidCredentialsError (e : exn) : bool :=
  match e with
  | InvalidCredentialsError _ => true
  | _ => false
  end.

(** The result of running a piece of Python code: a value or a raised
    exception. *)
Inductive res (A : Type) : Type :=
| Ok (a : A)
| Raise (e : exn).
Arguments Ok {A} a.
Arguments Raise {A} e.

(** ** The monad: state passing with exceptions *)

Definition M (S A : Type) : Type := S -> res A * S.

Definition ret {S A} (a : A) : M S A := fun s => (Ok a, s).

Definition bind {S A B} (m : M S A) (k : A -> M S B) : M S B :=
  fun s =>
    match m s with
    | (Ok a, s') => k a s'
    | (Raise e, s') => (Raise e, s')
    end.

Definition raise {S A} (e : exn) : M S A := fun s => (Raise e, s).

Definition get {S} : M S S := fun s => (Ok s, s).
Definition modify {S} (f : S -> S) : M S unit := fun s => (Ok tt, f s).

Declare Scope py_scope.
Delimit Scope py_scope with py.
Notation "x <- m ;; k" := (bind m (fun x => k))
  (at level 61, m at next level, right associativity) : py_scope.
Notation "' pat <- m ;; k" := (bind m (fun x => match x with pat => k end))
  (at level 61, pat pattern, m at next level, right associativity) : py_scope.
Notation "m ;; k" := (bind m (fun _ => k))
  (at level 61, right associativity) : py_scope.
Local Open Scope py_scope.

(** [try: body  except ...: handler  else: els  finally: fin].
    [handler e] is [None] when no except clause matches [e].  The finally
    clause runs on every path; an exception it raises replaces the pending
    outcome. *)
Definition try_except_else_finally {S A B}
    (body : M S A) (handler : exn -> option (M S B))
    (els : A -> M S B) (fin : M S unit) : M S B :=
  fun s =>
    let '(r, s1) :=
      match body s with
      | (Ok a, s') => els a s'
      | (Raise e, s') =>
          match handler e with
          | Some h => h s'
          | None => (Raise e, s')
          end
      end in
    match fin s1 with
    | (Ok _, s2) => (r, s2)
    | (Raise e, s2) => (Raise e, s2)
    end.

(** [try: body  except Exception as err: handler err]. *)
Definition try_except_Exception {S A}
    (body : M S A) (handler : exn -> M S A) : M S A :=
  fun s =>
    match body s with
    | (Ok a, s') => (Ok a, s')
    | (Raise e, s') =>
        if is_Exception e then handler e s' else (Raise e, s')
    end.

(** A block with local variables of type [L]: the body runs on the pair of
    the locals and the outer state. *)
Definition with_locals {S L A} (init : L) (m : M (L * S) A) : M S A :=
  fun s =>
    match m (init, s) with
    | (r, (_, s')) => (r, s')
    end.

(** An outer-state computation run inside such a block. *)
Definition lift {S L A} (m : M S A) : M (L * S) A :=
  fun ls =>
    match m (snd ls) with
    | (r, s') => (r, (fst ls, s'))
    end.

Definition get_local {S L} : M (L * S) L := fun ls => (Ok (fst ls), ls).
Definition set_local {S L} (f : L -> L) : M (L * S) unit :=
  fun ls => (Ok tt, (f (fst ls), snd ls)).

(** ** Data model *)

(** [ops.model] statuses the charm writes. *)
Inductive Status : Type :=
| MaintenanceStatus (message : string)
| BlockedStatus (message : string)
| ActiveStatus (message : string).

(** [self._stored]: the two persisted flags. *)
Record StoredState : Type := mkStored {
  exporter_installed : bool;
  resource_installed : bool
}.

(** Calls to external collaborators, as they appear in the trace.  The
    arguments of a call are not recorded: an oracle answers by the number of
    earlier calls of the same kind, and the oracles are arbitrary. *)
Inductive Call : Type :=
| ToolInstall | ToolRemove | ToolCheckInstalled
| ExporterInstall | ExporterUninstall
| ExporterCheckHealth | ExporterCheckActive
| ExporterRestart | ExporterStart | ExporterStop
| ExporterEnable | ExporterDisable
| RenderConfig
| Sleep
| EventDefer
| BmcHwVerifier | GetBmcAddress
| RedfishClient | RedfishLogin | RedfishLogout.

Definition Call_eq_dec (a b : Call) : {a = b} + {a <> b}.
Proof. decide equality. Defined.

(** What a handler can observe and change: the persisted flags, the unit
    status and the calls made so far (oldest first). *)
Record World : Type := mkWorld {
  stored : StoredState;
  unit_status : Status;
  trace : list Call
}.

Definition set_resource_installed (b : bool) (w : World) : World :=
  mkWorld (mkStored (exporter_installed (stored w)) b) (unit_status w) (trace w).
Definition set_exporter_installed (b : bool) (w : World) : World :=
  mkWorld (mkStored b (resource_installed (stored w))) (unit_status w) (trace w).
Definition set_unit_status (st : Status) (w : World) : World :=
  mkWorld (stored w) st (trace w).
Definition log_call (c : Call) (w : World) : World :=
  mkWorld (stored w) (unit_status w) (trace w ++ [c]).

(** Number of calls of kind [c] made so far. *)
Definition calls (c : Call) (w : World) : nat :=
  count_occ Call_eq_dec (trace w) c.

(** Modelled from the spec: [config.HWTool] is not under src/; the charm
    only tests membership of [HWTool.REDFISH]. *)
Inductive HWTool : Type :=
| REDFISH
| OtherTool (name : string).

Definition HWTool_eqb (a b : HWTool) : bool :=
  match a, b with
  | REDFISH, REDFISH => true
  | OtherTool x, OtherTool y => String.eqb x y
  | _, _ => false
  end.

(** [self.model.config]: the declared options.  The two redfish options may
    be absent ([config.get(..., "")]). *)
Record Config : Type := mkConfig {
  exporter_port : Z;
  exporter_log_level : string;
  collect_timeout : Z;
  redfish_username : option string;
  redfish_password : option string
}.

(** Modelled from the spec: the constants imported from [config] are not
    under src/; they are parameters of the model. *)
Record Constants : Type := mkConstants {
  EXPORTER_CRASH_MSG : string;
  EXPORTER_HEALTH_RETRY_COUNT : Z;
  EXPORTER_HEALTH_RETRY_TIMEOUT : Z;
  REDFISH_MAX_RETRY : Z;
  REDFISH_TIMEOUT : Z
}.

(** The external collaborators: the answer to the k-th call of each kind,
    a returned value or a raised exception. *)
Record Ext : Type := mkExt {
  tool_install : nat -> res (bool * string);
  tool_remove : nat -> res unit;
  tool_check_installed : nat -> res (bool * string);
  exporter_install : nat -> res bool;
  exporter_uninstall : nat -> res bool;
  exporter_check_health : nat -> res bool;
  exporter_check_active : nat -> res bool;
  exporter_restart : nat -> res unit;
  exporter_start : nat -> res unit;
  exporter_stop : nat -> res unit;
  exporter_enable : nat -> res unit;
  exporter_disable : nat -> res unit;
  template_render_config : nat -> res bool;
  bmc_hw_verifier : nat -> res (list HWTool);
  get_bmc_address : nat -> res string;
  redfish_client : nat -> res unit;
  redfish_login : nat -> res unit;
  redfish_logout : nat -> res unit
}.

(** [self.model]: configuration and relations (relation name to the list of
    its relation ids). *)
Record Model : Type := mkModel {
  config : Config;
  relations : list (string * list Z)
}.

(** The charm object of one event dispatch. *)
Record Charm : Type := mkCharm {
  model : Model;
  ext : Ext;
  consts : Constants;
  num_cos_agent_relations : nat
}.

(** An event: only its handle and [defer] are used. *)
Record EventBase : Type := mkEvent { handle : string }.

(** ** Primitive operations *)

(** A call to an external collaborator: logged, and answered by the oracle
    at the index of this call among the calls of its kind. *)
Definition call {A} (c : Call) (answer : nat -> res A) : M World A :=
  fun w => (answer (calls c w), log_call c w).

Definition get_stored : M World StoredState := fun w => (Ok (stored w), w).
Definition set_status (st : Status) : M World unit := modify (set_unit_status st).

(** [time.sleep]. *)
Definition sleep (_ : Z) : M World unit := call Sleep (fun _ => Ok tt).

(** [event.defer()]. *)
Definition defer (_ : EventBase) : M World unit := call EventDefer (fun _ => Ok tt).

(** [dict.get(key, default)] on a dictionary kept as an association list. *)
Fixpoint dict_get {V} (d : list (string * V)) (key : string) (default : V) : V :=
  match d with
  | [] => default
  | (k, v) :: d' => if String.eqb k key then v else dict_get d' key default
  end.

(** Truthiness of a dictionary: [not d] holds for the empty one. *)
Definition dict_is_empty {V} (d : list (string * V)) : bool :=
  match d with [] => true | _ => false end.

(** [str.upper] on the ASCII letters; other characters are kept. *)
Definition upper_ascii (c : ascii) : ascii :=
  let n := nat_of_ascii c in
  if (97 <=? n)%nat && (n <=? 122)%nat then ascii_of_nat (n - 32) else c.

Fixpoint upper (s : string) : string :=
  match s with
  | EmptyString => EmptyString
  | String c s' => String (upper_ascii c) (upper s')
  end.

(** ** The charm's methods *)

(** [get_num_cos_agent_relations]: [len(self.model.relations.get(name, []))]. *)
Definition get_num_cos_agent_relations (m : Model) (relation_name : string) : nat :=
  List.length (dict_get (relations m) relation_name []).

(** [__init__]: the part that fixes the relation count of this dispatch. *)
Definition charm_init (m : Model) (e : Ext) (c : Constants) : Charm :=
  mkCharm m e c (get_num_cos_agent_relations m "cos-agent").

(** Property [exporter_enabled]. *)
Definition exporter_enabled (self : Charm) : bool :=
  negb (Nat.eqb (num_cos_agent_relations self) 0).

(** Property [too_many_cos_agent_relations]. *)
Definition too_many_cos_agent_relations (self : Charm) : bool :=
  Nat.ltb 1 (num_cos_agent_relations self).

(** [get_redfish_conn_params]. *)
Definition get_redfish_conn_params (self : Charm) : M World (list (string * string)) :=
  bmc_tools <- call BmcHwVerifier (bmc_hw_verifier (ext self)) ;;
  if negb (existsb (HWTool_eqb REDFISH) bmc_tools) then
    ret []
  else
    address <- call GetBmcAddress (get_bmc_address (ext self)) ;;
    ret [ ("host", "https://" ++ address);
          ("username", match redfish_username (config (model self)) with
                       | Some u => u | None => "" end);
          ("password", match redfish_password (config (model self)) with
                       | Some p => p | None => "" end) ].

(** The client object returned by [redfish_client(...)]; it is truthy. *)
Record RedfishObj : Type := mkRedfishObj {
  rf_base_url : string;
  rf_username : string;
  rf_password : string;
  rf_timeout : Z;
  rf_max_retry : Z
}.

(** Local variables of [redfish_conn_params_valid]; [result] is unbound
    until one of the clauses assigns it. *)
Record Locals : Type := mkLocals {
  redfish_obj : option RedfishObj;
  result : option bool
}.

Definition set_redfish_obj (o : RedfishObj) (l : Locals) : Locals :=
  mkLocals (Some o) (result l).
Definition set_result (b : bool) (l : Locals) : Locals :=
  mkLocals (redfish_obj l) (Some b).

(** Property [redfish_conn_params_valid]: [None] when redfish is not
    available, otherwise whether a session could be opened. *)
Definition redfish_conn_params_valid (self : Charm) : M World (option bool) :=
  redfish_conn_params <- get_redfish_conn_params self ;;
  if dict_is_empty redfish_conn_params then
    ret None
  else
    with_locals (mkLocals None None)
      (try_except_else_finally
         (lift (call RedfishClient (redfish_client (ext self))) ;;
          set_local (set_redfish_obj
            (mkRedfishObj (dict_get redfish_conn_params "host" "")
                          (dict_get redfish_conn_params "username" "")
                          (dict_get redfish_conn_params "password" "")
                          (REDFISH_TIMEOUT (consts self))
                          (REDFISH_MAX_RETRY (consts self)))) ;;
          lift (call RedfishLogin (redfish_login (ext self))))
         (fun e =>
            if is_InvalidCredentialsError e then Some (set_local (set_result false))
            else if is_Exception e then Some (set_local (set_result false))
            else None)
         (fun _ => set_local (set_result true))
         (l <- get_local ;;
          match redfish_obj l with
          | Some _ => lift (call RedfishLogout (redfish_logout (ext self)))
          | None => ret tt
          end) ;;
       l <- get_local ;;
       match result l with
       | Some b => ret (Some b)
       | None => raise (OtherException "UnboundLocalError")
       end).

Definition allowed_choices : list string :=
  ["DEBUG"; "INFO"; "WARNING"; "ERROR"; "CRITICAL"].

(** [x is False] for an [Optional[bool]]. *)
Definition is_False (x : option bool) : bool :=
  match x with
  | Some false => true
  | _ => false
  end.

(** [1 <= port <= 65535]. *)
Definition port_in_range (port : Z) : bool :=
  (1 <=? port) && (port <=? 65535).

(** [level.upper() in allowed_choices]. *)
Definition level_allowed (level : string) : bool :=
  existsb (String.eqb (upper level)) allowed_choices.

(** [validate_exporter_configs]. *)
Definition validate_exporter_configs (self : Charm) : M World (bool * string) :=
  let port := exporter_port (config (model self)) in
  if negb (port_in_range port) then
    ret (false, "Invalid config: 'exporter-port'")
  else
    let level := exporter_log_level (config (model self)) in
    if negb (level_allowed level) then
      ret (false, "Invalid config: 'exporter-log-level'")
    else
      valid <- redfish_conn_params_valid self ;;
      if is_False valid then
        ret (false, "Invalid config: 'redfish-username' or 'redfish-password'")
      else
        ret (true, "Exporter config is valid.").

(** The [for i in range(1, EXPORTER_HEALTH_RETRY_COUNT + 1)] loop of
    [restart_exporter], with [n] iterations left; [break] ends it. *)
Fixpoint restart_loop (self : Charm) (n : nat) : M World unit :=
  match n with
  | O => ret tt
  | S n' =>
      call ExporterRestart (exporter_restart (ext self)) ;;
      sleep (EXPORTER_HEALTH_RETRY_TIMEOUT (consts self)) ;;
      active <- call ExporterCheckActive (exporter_check_active (ext self)) ;;
      if active then ret tt else restart_loop self n'
  end.

(** The [try] block of [restart_exporter]: the loop, then one more probe
    that decides whether the fatal error is raised. *)
Definition restart_try_block (self : Charm) : M World unit :=
  restart_loop self (Z.to_nat (EXPORTER_HEALTH_RETRY_COUNT (consts self))) ;;
  active <- call ExporterCheckActive (exporter_check_active (ext self)) ;;
  if negb active then
    raise (ExporterError (EXPORTER_CRASH_MSG (consts self)) None)
  else ret tt.

(** [restart_exporter]: the block above under
    [except Exception as err: raise ExporterError(EXPORTER_CRASH_MSG) from err]. *)
Definition restart_exporter (self : Charm) : M World unit :=
  try_except_Exception
    (restart_try_block self)
    (fun err =>
       raise (ExporterError (EXPORTER_CRASH_MSG (consts self)) (Some err))).

(** [_on_update_status]. *)
Definition _on_update_status (self : Charm) (_ : EventBase) : M World unit :=
  st <- get_stored ;;
  if negb (resource_installed st) then
    ret tt
  else if negb (exporter_enabled self) then
    set_status (BlockedStatus "Missing relation: [cos-agent]")
  else if too_many_cos_agent_relations self then
    set_status (BlockedStatus "Cannot relate to more than one grafana-agent")
  else
    '(config_valid, config_valid_message) <- validate_exporter_configs self ;;
    if negb config_valid then
      set_status (BlockedStatus config_valid_message)
    else
      '(hw_tool_ok, error_msg) <-
         call ToolCheckInstalled (tool_check_installed (ext self)) ;;
      if negb hw_tool_ok then
        set_status (BlockedStatus error_msg)
      else
        healthy <- call ExporterCheckHealth (exporter_check_health (ext self)) ;;
        (if negb healthy then restart_exporter self else ret tt) ;;
        set_status (ActiveStatus "Unit is ready").

(** [_on_install_or_upgrade]. *)
Definition _on_install_or_upgrade (self : Charm) (event : EventBase) : M World unit :=
  set_status (MaintenanceStatus "Installing resources...") ;;
  '(installed, msg) <- call ToolInstall (tool_install (ext self)) ;;
  modify (set_resource_installed installed) ;;
  if negb installed then
    set_status (BlockedStatus msg)
  else
    set_status (MaintenanceStatus "Installing exporter...") ;;
    _ <- get_redfish_conn_params self ;;
    success <- call ExporterInstall (exporter_install (ext self)) ;;
    modify (set_exporter_installed success) ;;
    if negb success then
      set_status (BlockedStatus
        "Failed to install exporter, please refer to `juju debug-log`")
    else
      _on_update_status self event.

(** [_on_remove]. *)
Definition _on_remove (self : Charm) (_ : EventBase) : M World unit :=
  call ToolRemove (tool_remove (ext self)) ;;
  modify (set_resource_installed false) ;;
  success <- call ExporterUninstall (exporter_uninstall (ext self)) ;;
  modify (set_exporter_installed (negb success)).

(** [_on_config_changed]. *)
Definition _on_config_changed (self : Charm) (event : EventBase) : M World unit :=
  st <- get_stored ;;
  (if negb (resource_installed st) then defer event else ret tt) ;;
  if exporter_enabled self then
    '(success, message) <- validate_exporter_configs self ;;
    if negb success then
      set_status (BlockedStatus message)
    else
      _ <- get_redfish_conn_params self ;;
      success <- call RenderConfig (template_render_config (ext self)) ;;
      if negb success then
        set_status (BlockedStatus
          "Failed to configure exporter, please check if the server is healthy.")
      else
        call ExporterRestart (exporter_restart (ext self)) ;;
        _on_update_status self event
  else
    _on_update_status self event.

(** [_on_cos_agent_relation_joined]. *)
Definition _on_cos_agent_relation_joined (self : Charm) (event : EventBase) : M World unit :=
  st <- get_stored ;;
  if negb (resource_installed st) || negb (exporter_installed st) then
    defer event
  else
    call ExporterEnable (exporter_enable (ext self)) ;;
    call ExporterStart (exporter_start (ext self)) ;;
    _on_update_status self event.

(** [_on_cos_agent_relation_departed]. *)
Definition _on_cos_agent_relation_departed (self : Charm) (event : EventBase) : M World unit :=
  st <- get_stored ;;
  (if exporter_installed st then
     call ExporterStop (exporter_stop (ext self)) ;;
     call ExporterDisable (exporter_disable (ext self))
   else ret tt) ;;
  _on_update_status self event.

(** ** Sample environments *)

(** An environment given by the answers that vary in the examples; every
    other collaborator succeeds. *)
Definition make_ext
    (tools : res (bool * string))
    (health active : nat -> res bool) (restart : nat -> res unit)
    (bmc : list HWTool) (client login logout : res unit)
    (uninstall : res bool) : Ext :=
  mkExt (fun _ => Ok (true, "")) (fun _ => Ok tt) (fun _ => tools)
        (fun _ => Ok true) (fun _ => uninstall)
        health active restart
        (fun _ => Ok tt) (fun _ => Ok tt) (fun _ => Ok tt) (fun _ => Ok tt)
        (fun _ => Ok true)
        (fun _ => Ok bmc) (fun _ => Ok "10.0.0.1")
        (fun _ => client) (fun _ => login) (fun _ => logout).

(** A node without redfish whose exporter is healthy. *)
Definition healthy_ext : Ext :=
  make_ext (Ok (true, "")) (fun _ => Ok true) (fun _ => Ok true) (fun _ => Ok tt)
           [] (Ok tt) (Ok tt) (Ok tt) (Ok true).

(** A node with redfish; [login] is the answer of the session login. *)
Definition redfish_ext (login : res unit) : Ext :=
  make_ext (Ok (true, "")) (fun _ => Ok true) (fun _ => Ok true) (fun _ => Ok tt)
           [OtherTool "ipmi"; REDFISH] (Ok tt) login (Ok tt) (Ok true).

(** An unhealthy exporter whose liveness probes answer [active]. *)
Definition unhealthy_ext (active : nat -> res bool) : Ext :=
  make_ext (Ok (true, "")) (fun _ => Ok false) active (fun _ => Ok tt)
           [] (Ok tt) (Ok tt) (Ok tt) (Ok true).

Definition sample_consts : Constants :=
  mkConstants "Exporter crashed unexpectedly, please refer to systemd logs..."
              3 3 2 3.

Definition sample_config (port : Z) (level : string) : Config :=
  mkConfig port level 10 (Some "admin") (Some "secret").

(** A charm with [n] cos-agent relations. *)
Definition sample_charm (n : nat) (c : Config) (e : Ext) : Charm :=
  charm_init (mkModel c [("cos-agent", map Z.of_nat (seq 0 n))]) e sample_consts.

Definition sample_event : EventBase := mkEvent "event".

Definition installed_world : World :=
  mkWorld (mkStored true true) (MaintenanceStatus "Installing exporter...") [].

Definition failed_install_world : World :=
  mkWorld (mkStored false false) (BlockedStatus "Failed to install resources") [].

(** The outcome of the credential check once a client object exists, from
    the answers of the login and of the logout. *)
Definition session_outcome (login logout : res unit) : res (option bool) :=
  match logout with
  | Raise e' => Raise e'
  | Ok _ =>
      match login with
      | Ok _ => Ok (Some true)
      | Raise e => if is_Exception e then Ok (Some false) else Raise e
      end
  end.

(** ** Traces of the restart supervisor *)

(** The world after the further external calls [cs]. *)
Definition after_calls (cs : list Call) (w : World) : World :=
  mkWorld (stored w) (unit_status w) (trace w ++ cs).

(** The calls of [n] complete restart attempts. *)
Fixpoint attempts (n : nat) : list Call :=
  match n with
  | O => []
  | S n' => ExporterRestart :: Sleep :: ExporterCheckActive :: attempts n'
  end.

(** [w'] is [w] after external calls all of which satisfy [allowed]; the
    persisted flags and the status are the same. *)
Definition only_calls (allowed : Call -> bool) (w w' : World) : Prop :=
  exists cs, w' = after_calls cs w /\ forallb allowed cs = true.

(** A computation over a state that contains the world (at [proj]) and whose
    only effect on the world is to make calls satisfying [allowed]. *)
Definition frames {S A} (proj : S -> World) (allowed : Call -> bool)
    (m : M S A) : Prop :=
  forall s, only_calls allowed (proj s) (proj (snd (m s))).

(** The calls of the credential check. *)
Definition credential_call (c : Call) : bool :=
  match c with
  | BmcHwVerifier | GetBmcAddress
  | RedfishClient | RedfishLogin | RedfishLogout => true
  | _ => false
  end.

(** The calls of the restart supervisor. *)
Definition supervisor_call (c : Call) : bool :=
  match c with
  | ExporterRestart | Sleep | ExporterCheckActive => true
  | _ => false
  end.

(** A node whose tools are missing and whose exporter is down. *)
Definition all_failing_ext : Ext :=
  make_ext (Ok (false, "Missing tools")) (fun _ => Ok false) (fun _ => Ok false)
           (fun _ => Ok tt) [] (Ok tt) (Ok tt) (Ok tt) (Ok true).

(** An exporter that is active at the first liveness probe only. *)
Definition flapping_charm : Charm :=
  sample_charm 1 (sample_config 8080 "info")
    (unhealthy_ext (fun k => Ok (Nat.eqb k 0))).

(** An exporter that becomes active from the fifth liveness probe on. *)
Definition late_recovery_charm : Charm :=
  sample_charm 1 (sample_config 8080 "info")
    (unhealthy_ext (fun k => Ok (Nat.leb 4 k))).

(** ** The facts one evaluation reads *)

(** The observed facts of the spec's data model, as an evaluation started in
    a world reads them; each is the answer of a call that may also raise. *)
Record ObservedFacts : Type := mkFacts {
  relationCount : nat;
  configValid : res (bool * string);
  toolsOk : res (bool * string);
  exporterHealthy : res bool
}.

Definition observed (self : Charm) (w : World) : ObservedFacts :=
  mkFacts (num_cos_agent_relations self)
          (fst (validate_exporter_configs self w))
          (tool_check_installed (ext self) (calls ToolCheckInstalled w))
          (exporter_check_health (ext self) (calls ExporterCheckHealth w)).

(** The status rule of the evaluator, written after the order of checks of
    the spec: the status that results from the installed flag, the observed
    facts, the outcome of the restart supervisor and the status in place
    before the call (kept where no status is written). *)
Definition status_rule (installed : bool) (facts : ObservedFacts)
    (supervisor : res unit) (previous : Status) : Status :=
  if negb installed then previous
  else if Nat.eqb (relationCount facts) 0 then
    BlockedStatus "Missing relation: [cos-agent]"
  else if Nat.ltb 1 (relationCount facts) then
    BlockedStatus "Cannot relate to more than one grafana-agent"
  else
    match configValid facts with
    | Raise _ => previous
    | Ok (false, reason) => BlockedStatus reason
    | Ok (true, _) =>
        match toolsOk facts with
        | Raise _ => previous
        | Ok (false, reason) => BlockedStatus reason
        | Ok (true, _) =>
            match exporterHealthy facts with
            | Raise _ => previous
            | Ok true => ActiveStatus "Unit is ready"
            | Ok false =>
                match supervisor with
                | Ok _ => ActiveStatus "Unit is ready"
                | Raise _ => previous
                end
            end
        end
    end.

(** An exporter whose second restart request raises. *)
Definition restart_fails_second_ext : Ext :=
  make_ext (Ok (true, "")) (fun _ => Ok false) (fun _ => Ok false)
           (fun k => if Nat.eqb k 1 then Raise (OtherException "CalledProcessError")
                     else Ok tt)
           [] (Ok tt) (Ok tt) (Ok tt) (Ok true).

(** [self._stored.set_default(exporter_installed=False, resource_installed=False)]. *)
Definition stored_default : StoredState := mkStored false false.

(** A unit before its install event. *)
Definition fresh_world : World :=
  mkWorld stored_default (MaintenanceStatus "") [].

(** A node on which the tool installation fails. *)
Definition tool_install_fails_ext : Ext :=
  mkExt (fun _ => Ok (false, "Missing resources: storcli")) (fun _ => Ok tt)
        (fun _ => Ok (false, "")) (fun _ => Ok true) (fun _ => Ok true)
        (fun _ => Ok true) (fun _ => Ok true) (fun _ => Ok tt)
        (fun _ => Ok tt) (fun _ => Ok tt) (fun _ => Ok tt) (fun _ => Ok tt)
        (fun _ => Ok true) (fun _ => Ok []) (fun _ => Ok "10.0.0.1")
        (fun _ => Ok tt) (fun _ => Ok tt) (fun _ => Ok tt).

(** A node on which the exporter installation fails. *)
Definition exporter_install_fails_ext : Ext :=
  mkExt (fun _ => Ok (true, "")) (fun _ => Ok tt)
        (fun _ => Ok (true, "")) (fun _ => Ok false) (fun _ => Ok true)
        (fun _ => Ok true) (fun _ => Ok true) (fun _ => Ok tt)
        (fun _ => Ok tt) (fun _ => Ok tt) (fun _ => Ok tt) (fun _ => Ok tt)
        (fun _ => Ok true) (fun _ => Ok []) (fun _ => Ok "10.0.0.1")
        (fun _ => Ok tt) (fun _ => Ok tt) (fun _ => Ok tt).

(** A computation that leaves the persisted flags as they were, however it
    ends. *)
Definition keeps_flags {A} (m : M World A) : Prop :=
  forall w, stored (snd (m w)) = stored w.

(** A node on which rendering the exporter configuration fails. *)
Definition render_fails_ext : Ext :=
  mkExt (fun _ => Ok (true, "")) (fun _ => Ok tt)
        (fun _ => Ok (true, "")) (fun _ => Ok true) (fun _ => Ok true)
        (fun _ => Ok true) (fun _ => Ok true) (fun _ => Ok tt)
        (fun _ => Ok tt) (fun _ => Ok tt) (fun _ => Ok tt) (fun _ => Ok tt)
        (fun _ => Ok false) (fun _ => Ok []) (fun _ => Ok "10.0.0.1")
        (fun _ => Ok tt) (fun _ => Ok tt) (fun _ => Ok tt).

(** ** Basic facts on the trace *)

Lemma calls_log_call_same (c : Call) (w : World) :
  calls c (log_call c w) = S (calls c w).
Proof.
  unfold calls, log_call; simpl.
  rewrite count_occ_app; simpl.
  destruct (Call_eq_dec c c); [lia | congruence].
Qed.

Lemma calls_log_call_other (c c' : Call) (w : World) :
  c' <> c -> calls c (log_call c' w) = calls c w.
Proof.
  intros Hne. unfold calls, log_call; simpl.
  rewrite count_occ_app; simpl.
  destruct (Call_eq_dec c' c); [congruence | lia].
Qed.

Lemma calls_set_unit_status (c : Call) (st : Status) (w : World) :
  calls c (set_unit_status st w) = calls c w.
Proof. reflexivity. Qed.

Lemma calls_set_resource_installed (c : Call) (b : bool) (w : World) :
  calls c (set_resource_installed b w) = calls c w.
Proof. reflexivity. Qed.

(** ** The evaluator when installation never completed *)

(** C8: when [resource_installed] is false, [_on_update_status] returns
    normally and leaves the whole world as it was: the status already set,
    the persisted flags and the trace of external calls are untouched. *)
Theorem update_status_not_installed_is_noop
    (self : Charm) (ev : EventBase) (w : World) :
  resource_installed (stored w) = false ->
  _on_update_status self ev w = (Ok tt, w).
Proof.
  intros Hres.
  unfold _on_update_status, bind, get_stored.
  rewrite Hres. reflexivity.
Qed.

Lemma update_status_not_installed_is_noop_witness :
  _on_update_status (sample_charm 1 (sample_config 8080 "info") healthy_ext)
                    sample_event failed_install_world
  = (Ok tt, failed_install_world).
Proof.
  apply (update_status_not_installed_is_noop
           (sample_charm 1 (sample_config 8080 "info") healthy_ext)
           sample_event failed_install_world).
  reflexivity.
Defined.

(** ** Removal *)

(** C10: when the tool removal and the exporter uninstall both return,
    [_on_remove] returns with [resource_installed] false and
    [exporter_installed] equal to the negation of the uninstall's result:
    true exactly when the uninstall reported failure. *)
Theorem on_remove_flags
    (self : Charm) (ev : EventBase) (w : World) (success : bool) :
  tool_remove (ext self) (calls ToolRemove w) = Ok tt ->
  exporter_uninstall (ext self) (calls ExporterUninstall w) = Ok success ->
  exists w',
    _on_remove self ev w = (Ok tt, w') /\
    resource_installed (stored w') = false /\
    exporter_installed (stored w') = negb success /\
    (exporter_installed (stored w') = true <-> success = false) /\
    unit_status w' = unit_status w.
Proof.
  intros Hrm Hun.
  unfold _on_remove, bind, call, modify.
  rewrite Hrm.
  rewrite calls_set_resource_installed, calls_log_call_other by discriminate.
  rewrite Hun.
  eexists; split; [reflexivity |].
  simpl. repeat split; destruct success; simpl; congruence.
Qed.

Lemma on_remove_flags_witness :
  exists w',
    _on_remove (sample_charm 1 (sample_config 8080 "info")
                  (make_ext (Ok (true, "")) (fun _ => Ok true) (fun _ => Ok true)
                     (fun _ => Ok tt) [] (Ok tt) (Ok tt) (Ok tt) (Ok false)))
               sample_event installed_world = (Ok tt, w') /\
    resource_installed (stored w') = false /\
    exporter_installed (stored w') = negb false /\
    (exporter_installed (stored w') = true <-> false = false) /\
    unit_status w' = unit_status installed_world.
Proof.
  apply (on_remove_flags
           (sample_charm 1 (sample_config 8080 "info")
              (make_ext (Ok (true, "")) (fun _ => Ok true) (fun _ => Ok true)
                 (fun _ => Ok tt) [] (Ok tt) (Ok tt) (Ok tt) (Ok false)))
           sample_event installed_world false); reflexivity.
Defined.

(** ** The credential check *)

Ltac step_calls :=
  repeat first
    [ rewrite calls_log_call_same
    | rewrite calls_log_call_other by discriminate
    | rewrite calls_set_unit_status
    | rewrite calls_set_resource_installed ].

Lemma get_redfish_conn_params_unavailable
    (self : Charm) (w : World) (tools : list HWTool) :
  bmc_hw_verifier (ext self) (calls BmcHwVerifier w) = Ok tools ->
  existsb (HWTool_eqb REDFISH) tools = false ->
  get_redfish_conn_params self w = (Ok [], log_call BmcHwVerifier w).
Proof.
  intros Hbmc Hno.
  unfold get_redfish_conn_params, bind, call.
  rewrite Hbmc, Hno. reflexivity.
Qed.

Lemma get_redfish_conn_params_available
    (self : Charm) (w : World) (tools : list HWTool) (address : string) :
  bmc_hw_verifier (ext self) (calls BmcHwVerifier w) = Ok tools ->
  existsb (HWTool_eqb REDFISH) tools = true ->
  get_bmc_address (ext self) (calls GetBmcAddress w) = Ok address ->
  exists d,
    dict_is_empty d = false /\
    get_redfish_conn_params self w
    = (Ok d, log_call GetBmcAddress (log_call BmcHwVerifier w)).
Proof.
  intros Hbmc Hyes Haddr.
  unfold get_redfish_conn_params, bind, call.
  rewrite Hbmc, Hyes. cbn [negb].
  step_calls. rewrite Haddr.
  eexists; split; [| reflexivity]. reflexivity.
Qed.

Lemma redfish_conn_params_valid_unavailable
    (self : Charm) (w : World) (tools : list HWTool) :
  bmc_hw_verifier (ext self) (calls BmcHwVerifier w) = Ok tools ->
  existsb (HWTool_eqb REDFISH) tools = false ->
  redfish_conn_params_valid self w = (Ok None, log_call BmcHwVerifier w).
Proof.
  intros Hbmc Hno.
  unfold redfish_conn_params_valid, bind.
  rewrite (get_redfish_conn_params_unavailable self w tools Hbmc Hno).
  reflexivity.
Qed.

Lemma redfish_conn_params_valid_session
    (self : Charm) (w : World) (tools : list HWTool) (address : string) :
  bmc_hw_verifier (ext self) (calls BmcHwVerifier w) = Ok tools ->
  existsb (HWTool_eqb REDFISH) tools = true ->
  get_bmc_address (ext self) (calls GetBmcAddress w) = Ok address ->
  redfish_client (ext self) (calls RedfishClient w) = Ok tt ->
  redfish_conn_params_valid self w
  = (session_outcome (redfish_login (ext self) (calls RedfishLogin w))
                     (redfish_logout (ext self) (calls RedfishLogout w)),
     log_call RedfishLogout (log_call RedfishLogin (log_call RedfishClient
       (log_call GetBmcAddress (log_call BmcHwVerifier w))))).
Proof.
  intros Hbmc Hyes Haddr Hcli.
  destruct (get_redfish_conn_params_available self w tools address Hbmc Hyes Haddr)
    as (d & Hd & Hget).
  unfold redfish_conn_params_valid, bind at 1.
  rewrite Hget, Hd.
  unfold with_locals, try_except_else_finally, bind, lift, call, set_local,
    get_local, ret, raise.
  cbn [fst snd].
  step_calls. rewrite Hcli. cbn [fst snd redfish_obj set_redfish_obj].
  step_calls.
  destruct (redfish_login (ext self) (calls RedfishLogin w)) as [[] | e];
    cbn [fst snd redfish_obj set_redfish_obj set_result result].
  - step_calls.
    destruct (redfish_logout (ext self) (calls RedfishLogout w)) as [[] | e'];
      reflexivity.
  - destruct e; cbn [is_InvalidCredentialsError is_Exception fst snd
                     redfish_obj set_redfish_obj set_result result];
      step_calls;
      destruct (redfish_logout (ext self) (calls RedfishLogout w)) as [[] | e'];
      reflexivity.
Qed.

(** C9: on every path of [redfish_conn_params_valid] on which the client
    object was created, whatever the login does (it returns, raises
    InvalidCredentialsError, raises any other exception, or raises something
    that no clause catches), the logout is called, once, as the last external
    call before the property returns or raises. *)
Theorem logout_on_every_path
    (self : Charm) (w : World) (tools : list HWTool) (address : string) :
  bmc_hw_verifier (ext self) (calls BmcHwVerifier w) = Ok tools ->
  existsb (HWTool_eqb REDFISH) tools = true ->
  get_bmc_address (ext self) (calls GetBmcAddress w) = Ok address ->
  redfish_client (ext self) (calls RedfishClient w) = Ok tt ->
  exists w',
    redfish_conn_params_valid self w
    = (session_outcome (redfish_login (ext self) (calls RedfishLogin w))
                       (redfish_logout (ext self) (calls RedfishLogout w)), w') /\
    trace w' = (trace w ++ [BmcHwVerifier; GetBmcAddress; RedfishClient;
                            RedfishLogin; RedfishLogout])%list /\
    calls RedfishLogout w' = S (calls RedfishLogout w) /\
    stored w' = stored w /\ unit_status w' = unit_status w.
Proof.
  intros Hbmc Hyes Haddr Hcli.
  eexists; split.
  - apply (redfish_conn_params_valid_session self w tools address); assumption.
  - split; [| split; [| split; reflexivity]].
    + cbn [trace log_call]. repeat rewrite <- app_assoc. reflexivity.
    + step_calls. reflexivity.
Qed.

Lemma logout_on_every_path_witness :
  exists w',
    redfish_conn_params_valid
      (sample_charm 1 (sample_config 8080 "info")
         (redfish_ext (Raise (InvalidCredentialsError "401"))))
      installed_world
    = (Ok (Some false), w') /\
    trace w' = [BmcHwVerifier; GetBmcAddress; RedfishClient;
                RedfishLogin; RedfishLogout] /\
    calls RedfishLogout w' = 1%nat /\
    stored w' = stored installed_world /\
    unit_status w' = unit_status installed_world.
Proof.
  apply (logout_on_every_path
           (sample_charm 1 (sample_config 8080 "info")
              (redfish_ext (Raise (InvalidCredentialsError "401"))))
           installed_world [OtherTool "ipmi"; REDFISH] "10.0.0.1");
    reflexivity.
Defined.

(** When the client object could not be created, no session exists and no
    logout is attempted. *)
Lemma no_client_no_logout
    (self : Charm) (w : World) (tools : list HWTool) (address : string) (e : exn) :
  bmc_hw_verifier (ext self) (calls BmcHwVerifier w) = Ok tools ->
  existsb (HWTool_eqb REDFISH) tools = true ->
  get_bmc_address (ext self) (calls GetBmcAddress w) = Ok address ->
  redfish_client (ext self) (calls RedfishClient w) = Raise e ->
  redfish_conn_params_valid self w
  = (if is_Exception e then Ok (Some false) else Raise e,
     log_call RedfishClient (log_call GetBmcAddress (log_call BmcHwVerifier w))).
Proof.
  intros Hbmc Hyes Haddr Hcli.
  destruct (get_redfish_conn_params_available self w tools address Hbmc Hyes Haddr)
    as (d & Hd & Hget).
  unfold redfish_conn_params_valid, bind at 1.
  rewrite Hget, Hd.
  unfold with_locals, try_except_else_finally, bind, lift, call, set_local,
    get_local, ret, raise.
  cbn [fst snd]. step_calls. rewrite Hcli.
  destruct e; reflexivity.
Qed.

(** ** Configuration validation *)

Lemma port_in_range_spec (port : Z) :
  port_in_range port = true <-> 1 <= port <= 65535.
Proof. unfold port_in_range. rewrite andb_true_iff, !Z.leb_le. tauto. Qed.

Lemma level_allowed_spec (level : string) :
  level_allowed level = true <-> In (upper level) allowed_choices.
Proof.
  unfold level_allowed. rewrite existsb_exists. split.
  - intros (x & Hin & Heq). apply String.eqb_eq in Heq. now subst.
  - intros Hin. exists (upper level). split; [assumption | apply String.eqb_refl].
Qed.

(** C6: [validate_exporter_configs] checks the port, then the log level,
    then the credentials, and returns at the first failure without running
    the later checks: a port outside [1, 65535] (0 and 65536 among them)
    gives the exporter-port message whatever the level is; a level whose
    upper-case form is not one of the five names (verbose among them) gives
    the exporter-log-level message before any credential check; otherwise
    the result follows the credential check, with the success message when
    it does not report False.  Port 8080 and level debug pass. *)
Theorem validate_exporter_configs_order (self : Charm) (w : World) :
  let port := exporter_port (config (model self)) in
  let level := exporter_log_level (config (model self)) in
  (port_in_range port = false ->
     validate_exporter_configs self w
     = (Ok (false, "Invalid config: 'exporter-port'"), w)) /\
  (port_in_range port = true -> level_allowed level = false ->
     validate_exporter_configs self w
     = (Ok (false, "Invalid config: 'exporter-log-level'"), w)) /\
  (port_in_range port = true -> level_allowed level = true ->
     forall valid w',
       redfish_conn_params_valid self w = (Ok valid, w') ->
       validate_exporter_configs self w
       = (Ok (if is_False valid
              then (false, "Invalid config: 'redfish-username' or 'redfish-password'")
              else (true, "Exporter config is valid.")), w')) /\
  (forall p, port_in_range p = true <-> 1 <= p <= 65535) /\
  (forall l, level_allowed l = true <->
             In (upper l) ["DEBUG"; "INFO"; "WARNING"; "ERROR"; "CRITICAL"]) /\
  port_in_range 0 = false /\ port_in_range 65536 = false /\
  port_in_range 8080 = true /\
  level_allowed "debug" = true /\ level_allowed "verbose" = false.
Proof.
  cbv zeta. split; [| split; [| split; [| split; [| split]]]].
  - intros Hp. unfold validate_exporter_configs. rewrite Hp. reflexivity.
  - intros Hp Hl. unfold validate_exporter_configs. rewrite Hp, Hl. reflexivity.
  - intros Hp Hl valid w' Hv.
    unfold validate_exporter_configs. rewrite Hp, Hl. cbn [negb].
    unfold bind. rewrite Hv. destruct (is_False valid); reflexivity.
  - exact port_in_range_spec.
  - exact level_allowed_spec.
  - repeat split.
Qed.

Lemma validate_exporter_configs_order_witness :
  validate_exporter_configs
    (sample_charm 1 (sample_config 0 "verbose") healthy_ext) installed_world
  = (Ok (false, "Invalid config: 'exporter-port'"), installed_world) /\
  validate_exporter_configs
    (sample_charm 1 (sample_config 8080 "verbose") healthy_ext) installed_world
  = (Ok (false, "Invalid config: 'exporter-log-level'"), installed_world) /\
  validate_exporter_configs
    (sample_charm 1 (sample_config 8080 "debug") healthy_ext) installed_world
  = (Ok (true, "Exporter config is valid."), log_call BmcHwVerifier installed_world).
Proof.
  split; [| split].
  - apply (proj1 (validate_exporter_configs_order
             (sample_charm 1 (sample_config 0 "verbose") healthy_ext)
             installed_world)).
    reflexivity.
  - apply (proj1 (proj2 (validate_exporter_configs_order
             (sample_charm 1 (sample_config 8080 "verbose") healthy_ext)
             installed_world))); reflexivity.
  - apply (proj1 (proj2 (proj2 (validate_exporter_configs_order
             (sample_charm 1 (sample_config 8080 "debug") healthy_ext)
             installed_world))) eq_refl eq_refl None); reflexivity.
Defined.

(** C7: with a valid port and log level, a credential check that reports
    the unavailable state [None] (which is what it reports when REDFISH is
    not among the BMC tools of the node) makes the validation succeed; the
    redfish message is returned exactly when the check reports [False]. *)
Theorem validate_credentials_tristate (self : Charm) (w : World) :
  port_in_range (exporter_port (config (model self))) = true ->
  level_allowed (exporter_log_level (config (model self))) = true ->
  (forall tools,
     bmc_hw_verifier (ext self) (calls BmcHwVerifier w) = Ok tools ->
     existsb (HWTool_eqb REDFISH) tools = false ->
     redfish_conn_params_valid self w = (Ok None, log_call BmcHwVerifier w) /\
     validate_exporter_configs self w
     = (Ok (true, "Exporter config is valid."), log_call BmcHwVerifier w)) /\
  (forall valid w',
     redfish_conn_params_valid self w = (Ok valid, w') ->
     (valid = None \/ valid = Some true ->
        validate_exporter_configs self w
        = (Ok (true, "Exporter config is valid."), w')) /\
     (valid = Some false ->
        validate_exporter_configs self w
        = (Ok (false, "Invalid config: 'redfish-username' or 'redfish-password'"), w')) /\
     (fst (validate_exporter_configs self w)
      = Ok (false, "Invalid config: 'redfish-username' or 'redfish-password'")
      <-> valid = Some false)).
Proof.
  intros Hp Hl.
  assert (Hgen : forall valid w',
      redfish_conn_params_valid self w = (Ok valid, w') ->
      validate_exporter_configs self w
      = (Ok (if is_False valid
             then (false, "Invalid config: 'redfish-username' or 'redfish-password'")
             else (true, "Exporter config is valid.")), w')).
  { intros valid w' Hv.
    unfold validate_exporter_configs. rewrite Hp, Hl. cbn [negb].
    unfold bind. rewrite Hv. destruct (is_False valid); reflexivity. }
  split.
  - intros tools Hbmc Hno.
    pose proof (redfish_conn_params_valid_unavailable self w tools Hbmc Hno) as Hv.
    split; [assumption |]. now rewrite (Hgen _ _ Hv).
  - intros valid w' Hv. rewrite (Hgen _ _ Hv).
    repeat split.
    + intros [-> | ->]; reflexivity.
    + intros ->; reflexivity.
    + destruct valid as [[] |]; cbn; intros H; congruence.
    + intros ->; reflexivity.
Qed.

Lemma validate_credentials_tristate_witness :
  validate_exporter_configs
    (sample_charm 1 (sample_config 8080 "info") healthy_ext) installed_world
  = (Ok (true, "Exporter config is valid."), log_call BmcHwVerifier installed_world) /\
  validate_exporter_configs
    (sample_charm 1 (sample_config 8080 "info")
       (redfish_ext (Raise (InvalidCredentialsError "401")))) installed_world
  = (Ok (false, "Invalid config: 'redfish-username' or 'redfish-password'"),
     log_call RedfishLogout (log_call RedfishLogin (log_call RedfishClient
       (log_call GetBmcAddress (log_call BmcHwVerifier installed_world))))).
Proof.
  split.
  - apply (proj1 (validate_credentials_tristate
             (sample_charm 1 (sample_config 8080 "info") healthy_ext)
             installed_world eq_refl eq_refl) []); reflexivity.
  - apply (proj2 (validate_credentials_tristate
             (sample_charm 1 (sample_config 8080 "info")
                (redfish_ext (Raise (InvalidCredentialsError "401"))))
             installed_world eq_refl eq_refl) (Some false)); reflexivity.
Defined.

(** ** Frame lemmas: which calls a computation may add *)

Lemma after_calls_nil (w : World) : after_calls [] w = w.
Proof. destruct w; unfold after_calls; simpl. now rewrite app_nil_r. Qed.

Lemma after_calls_app (a b : list Call) (w : World) :
  after_calls b (after_calls a w) = after_calls (a ++ b) w.
Proof. unfold after_calls; simpl. now rewrite app_assoc. Qed.

Lemma log_call_after_calls (c : Call) (w : World) :
  log_call c w = after_calls [c] w.
Proof. reflexivity. Qed.

Lemma set_unit_status_after_calls (st : Status) (cs : list Call) (w : World) :
  set_unit_status st (after_calls cs w) = after_calls cs (set_unit_status st w).
Proof. reflexivity. Qed.

Lemma calls_after_calls (c : Call) (cs : list Call) (w : World) :
  calls c (after_calls cs w) = (calls c w + count_occ Call_eq_dec cs c)%nat.
Proof. unfold calls, after_calls; simpl. apply count_occ_app. Qed.

Lemma count_occ_not_allowed (allowed : Call -> bool) (cs : list Call) (c : Call) :
  forallb allowed cs = true -> allowed c = false ->
  count_occ Call_eq_dec cs c = 0%nat.
Proof.
  intros Hall Hc. apply count_occ_not_In. intros Hin.
  rewrite forallb_forall in Hall. specialize (Hall c Hin). congruence.
Qed.

Lemma only_calls_refl (allowed : Call -> bool) (w : World) :
  only_calls allowed w w.
Proof. exists []. split; [now rewrite after_calls_nil | reflexivity]. Qed.

Lemma only_calls_trans (allowed : Call -> bool) (w1 w2 w3 : World) :
  only_calls allowed w1 w2 -> only_calls allowed w2 w3 ->
  only_calls allowed w1 w3.
Proof.
  intros (a & -> & Ha) (b & -> & Hb). exists (a ++ b)%list. split.
  - apply after_calls_app.
  - rewrite forallb_app, Ha, Hb. reflexivity.
Qed.

Lemma only_calls_log_call (allowed : Call -> bool) (c : Call) (w : World) :
  allowed c = true -> only_calls allowed w (log_call c w).
Proof. intros Hc. exists [c]. split; [reflexivity | simpl; now rewrite Hc]. Qed.

Lemma only_calls_weaken (p q : Call -> bool) (w w' : World) :
  (forall c, p c = true -> q c = true) ->
  only_calls p w w' -> only_calls q w w'.
Proof.
  intros Hpq (cs & -> & Hcs). exists cs. split; [reflexivity |].
  rewrite forallb_forall in *. auto.
Qed.

Lemma only_calls_stored (allowed : Call -> bool) (w w' : World) :
  only_calls allowed w w' -> stored w' = stored w.
Proof. now intros (cs & -> & _). Qed.

Lemma only_calls_unit_status (allowed : Call -> bool) (w w' : World) :
  only_calls allowed w w' -> unit_status w' = unit_status w.
Proof. now intros (cs & -> & _). Qed.

Lemma only_calls_calls (allowed : Call -> bool) (w w' : World) (c : Call) :
  only_calls allowed w w' -> allowed c = false -> calls c w' = calls c w.
Proof.
  intros (cs & -> & Hcs) Hc. rewrite calls_after_calls.
  rewrite (count_occ_not_allowed allowed cs c Hcs Hc). lia.
Qed.

Section Frames.
Context {S : Type} (proj : S -> World) (allowed : Call -> bool).

Lemma frames_ret {A} (a : A) : frames proj allowed (ret a).
Proof. intros s. apply only_calls_refl. Qed.

Lemma frames_raise {A} (e : exn) : frames proj allowed (@raise S A e).
Proof. intros s. apply only_calls_refl. Qed.

Lemma frames_bind {A B} (m : M S A) (k : A -> M S B) :
  frames proj allowed m -> (forall a, frames proj allowed (k a)) ->
  frames proj allowed (bind m k).
Proof.
  intros Hm Hk s. unfold bind. specialize (Hm s).
  destruct (m s) as [[a | e] s']; simpl in *.
  - eapply only_calls_trans; [exact Hm | apply Hk].
  - exact Hm.
Qed.

Lemma frames_try_except_Exception {A} (body : M S A) (handler : exn -> M S A) :
  frames proj allowed body -> (forall e, frames proj allowed (handler e)) ->
  frames proj allowed (try_except_Exception body handler).
Proof.
  intros Hb Hh s. unfold try_except_Exception. specialize (Hb s).
  destruct (body s) as [[a | e] s']; simpl in *; [exact Hb |].
  destruct (is_Exception e); simpl; [| exact Hb].
  eapply only_calls_trans; [exact Hb | apply Hh].
Qed.

Lemma frames_try_except_else_finally {A B}
    (body : M S A) (handler : exn -> option (M S B))
    (els : A -> M S B) (fin : M S unit) :
  frames proj allowed body ->
  (forall e h, handler e = Some h -> frames proj allowed h) ->
  (forall a, frames proj allowed (els a)) ->
  frames proj allowed fin ->
  frames proj allowed (try_except_else_finally body handler els fin).
Proof.
  intros Hb Hh He Hf s. unfold try_except_else_finally.
  specialize (Hb s).
  assert (Hmid : forall r s1,
    match body s with
    | (Ok a, s') => els a s'
    | (Raise e, s') =>
        match handler e with Some h => h s' | None => (Raise e, s') end
    end = (r, s1) -> only_calls allowed (proj s) (proj s1)).
  { intros r s1. destruct (body s) as [[a | e] s']; simpl in Hb.
    - intros Heq. specialize (He a s'). rewrite Heq in He.
      eapply only_calls_trans; eassumption.
    - destruct (handler e) as [h |] eqn:Hhe.
      + intros Heq. specialize (Hh e h Hhe s'). rewrite Heq in Hh.
        eapply only_calls_trans; eassumption.
      + intros [= _ <-]. exact Hb. }
  destruct (match body s with
            | (Ok a, s') => els a s'
            | (Raise e, s') =>
                match handler e with Some h => h s' | None => (Raise e, s') end
            end) as [r s1] eqn:Heq.
  specialize (Hmid r s1 eq_refl). specialize (Hf s1).
  destruct (fin s1) as [[u | e] s2]; simpl in *;
    eapply only_calls_trans; eassumption.
Qed.
End Frames.

Lemma frames_call {A} (allowed : Call -> bool) (c : Call) (answer : nat -> res A) :
  allowed c = true -> frames (fun w => w) allowed (call c answer).
Proof. intros Hc w. simpl. now apply only_calls_log_call. Qed.

Lemma frames_lift {L A} (allowed : Call -> bool) (m : M World A) :
  frames (fun w => w) allowed m -> frames (@snd L World) allowed (lift m).
Proof.
  intros Hm [l w]. unfold lift. specialize (Hm w). simpl in *.
  destruct (m w) as [r w']. exact Hm.
Qed.

Lemma frames_set_local {L} (allowed : Call -> bool) (f : L -> L) :
  frames (@snd L World) allowed (set_local f).
Proof. intros [l w]. apply only_calls_refl. Qed.

Lemma frames_get_local {L} (allowed : Call -> bool) :
  frames (@snd L World) allowed get_local.
Proof. intros [l w]. apply only_calls_refl. Qed.

Lemma frames_with_locals {L A} (allowed : Call -> bool) (init : L)
    (m : M (L * World) A) :
  frames (@snd L World) allowed m ->
  frames (fun w => w) allowed (with_locals init m).
Proof.
  intros Hm w. unfold with_locals. specialize (Hm (init, w)).
  destruct (m (init, w)) as [r [l w']]. exact Hm.
Qed.

Ltac frames_step :=
  first
    [ apply frames_ret | apply frames_raise
    | apply frames_set_local | apply frames_get_local
    | apply frames_call; reflexivity
    | apply frames_lift
    | apply frames_with_locals
    | apply frames_bind; [| intros ?]
    | apply frames_try_except_Exception; [| intros ?]
    | match goal with
      | |- frames _ _ (if ?b then _ else _) => destruct b
      | |- frames _ _ (match ?x with _ => _ end) => destruct x
      end ].

Lemma get_redfish_conn_params_frames (self : Charm) :
  frames (fun w => w) credential_call (get_redfish_conn_params self).
Proof. unfold get_redfish_conn_params. repeat frames_step. Qed.

Lemma redfish_conn_params_valid_frames (self : Charm) :
  frames (fun w => w) credential_call (redfish_conn_params_valid self).
Proof.
  unfold redfish_conn_params_valid.
  apply frames_bind; [apply get_redfish_conn_params_frames | intros d].
  destruct (dict_is_empty d); [apply frames_ret |].
  apply frames_with_locals.
  apply frames_bind; [| intros ?; repeat frames_step].
  apply frames_try_except_else_finally.
  - repeat frames_step.
  - intros e h.
    destruct (is_InvalidCredentialsError e); [| destruct (is_Exception e)];
      intros [= <-] || discriminate; apply frames_set_local.
  - intros a. apply frames_set_local.
  - repeat frames_step.
Qed.

Lemma validate_exporter_configs_frames (self : Charm) :
  frames (fun w => w) credential_call (validate_exporter_configs self).
Proof.
  unfold validate_exporter_configs.
  destruct (negb _); [apply frames_ret |].
  destruct (negb _); [apply frames_ret |].
  apply frames_bind; [apply redfish_conn_params_valid_frames | intros v].
  repeat frames_step.
Qed.

Lemma restart_loop_frames (self : Charm) (n : nat) :
  frames (fun w => w) supervisor_call (restart_loop self n).
Proof.
  induction n as [| n IH]; cbn [restart_loop].
  - apply frames_ret.
  - unfold sleep. repeat frames_step. exact IH.
Qed.

Lemma restart_exporter_frames (self : Charm) :
  frames (fun w => w) supervisor_call (restart_exporter self).
Proof.
  unfold restart_exporter, restart_try_block.
  apply frames_try_except_Exception; [| intros e; apply frames_raise].
  apply frames_bind; [apply restart_loop_frames | intros _].
  repeat frames_step.
Qed.

(** ** The restart supervisor *)

Lemma calls_restart_after_attempt (w : World) :
  calls ExporterRestart (after_calls (attempts 1) w) = S (calls ExporterRestart w).
Proof. rewrite calls_after_calls. simpl. lia. Qed.

Lemma calls_probe_after_attempt (w : World) :
  calls ExporterCheckActive (after_calls (attempts 1) w)
  = S (calls ExporterCheckActive w).
Proof. rewrite calls_after_calls. simpl. lia. Qed.

Lemma attempts_succ_app (n : nat) :
  attempts (S n) = (attempts 1 ++ attempts n)%list.
Proof. reflexivity. Qed.

Lemma attempts_count_restart (n : nat) :
  count_occ Call_eq_dec (attempts n) ExporterRestart = n.
Proof. induction n as [| n IH]; simpl; [reflexivity | now rewrite IH]. Qed.

Lemma attempts_count_probe (n : nat) :
  count_occ Call_eq_dec (attempts n) ExporterCheckActive = n.
Proof. induction n as [| n IH]; simpl; [reflexivity | now rewrite IH]. Qed.

(** One iteration of the loop whose restart request returns. *)
Lemma restart_loop_step (self : Charm) (n : nat) (w : World) :
  exporter_restart (ext self) (calls ExporterRestart w) = Ok tt ->
  restart_loop self (S n) w
  = match exporter_check_active (ext self) (calls ExporterCheckActive w) with
    | Ok true => (Ok tt, after_calls (attempts 1) w)
    | Ok false => restart_loop self n (after_calls (attempts 1) w)
    | Raise e => (Raise e, after_calls (attempts 1) w)
    end.
Proof.
  intros Hr. cbn [restart_loop]. unfold bind, sleep, call. rewrite Hr.
  step_calls.
  replace (log_call ExporterCheckActive (log_call Sleep (log_call ExporterRestart w)))
    with (after_calls (attempts 1) w).
  - destruct (exporter_check_active (ext self) (calls ExporterCheckActive w))
      as [[|] | e]; reflexivity.
  - unfold after_calls, log_call; simpl. now rewrite <- !app_assoc.
Qed.

(** A restart request that raises ends the loop at once. *)
Lemma restart_loop_restart_raises (self : Charm) (n : nat) (w : World) (e : exn) :
  exporter_restart (ext self) (calls ExporterRestart w) = Raise e ->
  restart_loop self (S n) w = (Raise e, log_call ExporterRestart w).
Proof.
  intros Hr. cbn [restart_loop]. unfold bind, call. now rewrite Hr.
Qed.

(** All [n] probes of the loop fail: the loop makes [n] attempts. *)
Lemma restart_loop_all_fail (self : Charm) (n : nat) :
  forall w,
    (forall j, (j < n)%nat ->
       exporter_restart (ext self) (calls ExporterRestart w + j) = Ok tt) ->
    (forall j, (j < n)%nat ->
       exporter_check_active (ext self) (calls ExporterCheckActive w + j) = Ok false) ->
    restart_loop self n w = (Ok tt, after_calls (attempts n) w).
Proof.
  induction n as [| n IH]; intros w Hr Ha.
  - cbn. now rewrite after_calls_nil.
  - rewrite restart_loop_step.
    2:{ specialize (Hr 0%nat). rewrite Nat.add_0_r in Hr. apply Hr. lia. }
    pose proof (Ha 0%nat) as Ha0. rewrite Nat.add_0_r in Ha0.
    rewrite Ha0 by lia.
    rewrite IH.
    + now rewrite after_calls_app, <- attempts_succ_app.
    + intros j Hj. rewrite calls_restart_after_attempt.
      replace (S (calls ExporterRestart w) + j)%nat
        with (calls ExporterRestart w + S j)%nat by lia.
      apply Hr. lia.
    + intros j Hj. rewrite calls_probe_after_attempt.
      replace (S (calls ExporterCheckActive w) + j)%nat
        with (calls ExporterCheckActive w + S j)%nat by lia.
      apply Ha. lia.
Qed.

(** The probe of attempt [i + 1] is the first to succeed: the loop stops
    after that attempt. *)
Lemma restart_loop_first_success (self : Charm) (i : nat) :
  forall n w,
    (i < n)%nat ->
    (forall j, (j <= i)%nat ->
       exporter_restart (ext self) (calls ExporterRestart w + j) = Ok tt) ->
    (forall j, (j < i)%nat ->
       exporter_check_active (ext self) (calls ExporterCheckActive w + j) = Ok false) ->
    exporter_check_active (ext self) (calls ExporterCheckActive w + i) = Ok true ->
    restart_loop self n w = (Ok tt, after_calls (attempts (S i)) w).
Proof.
  induction i as [| i IH]; intros n w Hlt Hr Ha Hok.
  - destruct n as [| n]; [lia |].
    rewrite restart_loop_step.
    2:{ specialize (Hr 0%nat). rewrite Nat.add_0_r in Hr. apply Hr. lia. }
    rewrite Nat.add_0_r in Hok. now rewrite Hok.
  - destruct n as [| n]; [lia |].
    rewrite restart_loop_step.
    2:{ specialize (Hr 0%nat). rewrite Nat.add_0_r in Hr. apply Hr. lia. }
    pose proof (Ha 0%nat) as Ha0. rewrite Nat.add_0_r in Ha0.
    rewrite Ha0 by lia.
    rewrite (IH n).
    + now rewrite after_calls_app, <- attempts_succ_app.
    + lia.
    + intros j Hj. rewrite calls_restart_after_attempt.
      replace (S (calls ExporterRestart w) + j)%nat
        with (calls ExporterRestart w + S j)%nat by lia.
      apply Hr. lia.
    + intros j Hj. rewrite calls_probe_after_attempt.
      replace (S (calls ExporterCheckActive w) + j)%nat
        with (calls ExporterCheckActive w + S j)%nat by lia.
      apply Ha. lia.
    + rewrite calls_probe_after_attempt.
      replace (S (calls ExporterCheckActive w) + i)%nat
        with (calls ExporterCheckActive w + S i)%nat by lia.
      exact Hok.
Qed.

(** The outcome of [restart_exporter] once the loop has ended after [k]
    attempts: it is decided by one more probe. *)
Lemma restart_exporter_after_loop (self : Charm) (w : World) (k : nat) :
  restart_loop self (Z.to_nat (EXPORTER_HEALTH_RETRY_COUNT (consts self))) w
  = (Ok tt, after_calls (attempts k) w) ->
  restart_exporter self w
  = (match exporter_check_active (ext self) (calls ExporterCheckActive w + k) with
     | Ok true => Ok tt
     | Ok false =>
         Raise (ExporterError (EXPORTER_CRASH_MSG (consts self))
                  (Some (ExporterError (EXPORTER_CRASH_MSG (consts self)) None)))
     | Raise e =>
         if is_Exception e
         then Raise (ExporterError (EXPORTER_CRASH_MSG (consts self)) (Some e))
         else Raise e
     end,
     after_calls (attempts k ++ [ExporterCheckActive]) w).
Proof.
  intros Hloop.
  unfold restart_exporter, try_except_Exception, restart_try_block, bind at 1.
  rewrite Hloop. unfold bind, call.
  rewrite calls_after_calls, attempts_count_probe.
  rewrite log_call_after_calls, after_calls_app.
  destruct (exporter_check_active (ext self) (calls ExporterCheckActive w + k))
    as [[|] | e]; try reflexivity.
  destruct (is_Exception e); reflexivity.
Qed.

(** An error raised inside the [try] block is wrapped, with the error as
    the cause; what is not an [Exception] passes through. *)
Lemma restart_exporter_wraps (self : Charm) (w w' : World) (e : exn) :
  restart_try_block self w = (Raise e, w') ->
  restart_exporter self w
  = (if is_Exception e
     then Raise (ExporterError (EXPORTER_CRASH_MSG (consts self)) (Some e))
     else Raise e, w').
Proof.
  intros Hb. unfold restart_exporter, try_except_Exception. rewrite Hb.
  destruct (is_Exception e); reflexivity.
Qed.

Lemma restart_exporter_returns (self : Charm) (w w' : World) :
  restart_try_block self w = (Ok tt, w') ->
  restart_exporter self w = (Ok tt, w').
Proof.
  intros Hb. unfold restart_exporter, try_except_Exception. now rewrite Hb.
Qed.

(** C4 (as amended): with a retry count of 3 and restart requests that
    return, if every liveness probe fails then [restart_exporter] makes
    exactly three restart attempts, probes once more, and raises the fatal
    ExporterError; if the probe of attempt [i + 1] (one of the three) is the
    first to succeed, the loop stops after that attempt, and the outcome is
    decided by one further probe made after the loop: no fatal error when it
    succeeds too, the fatal error when it fails. *)
Theorem restart_exporter_three_attempts (self : Charm) (w : World) :
  EXPORTER_HEALTH_RETRY_COUNT (consts self) = 3 ->
  (forall j, exporter_restart (ext self) (calls ExporterRestart w + j) = Ok tt) ->
  let probe j :=
    exporter_check_active (ext self) (calls ExporterCheckActive w + j) in
  let fatal : res unit :=
    Raise (ExporterError (EXPORTER_CRASH_MSG (consts self))
             (Some (ExporterError (EXPORTER_CRASH_MSG (consts self)) None))) in
  ((forall j, (j <= 3)%nat -> probe j = Ok false) ->
     restart_exporter self w
     = (fatal,
        after_calls [ExporterRestart; Sleep; ExporterCheckActive;
                     ExporterRestart; Sleep; ExporterCheckActive;
                     ExporterRestart; Sleep; ExporterCheckActive;
                     ExporterCheckActive] w)) /\
  (forall i, (i < 3)%nat ->
     (forall j, (j < i)%nat -> probe j = Ok false) ->
     probe i = Ok true ->
     forall confirmed, probe (S i) = Ok confirmed ->
     restart_exporter self w
     = (if confirmed then Ok tt else fatal,
        after_calls (attempts (S i) ++ [ExporterCheckActive]) w) /\
     count_occ Call_eq_dec (attempts (S i) ++ [ExporterCheckActive])
               ExporterRestart = S i).
Proof.
  intros HR Hr probe fatal. split.
  - intros Hfail.
    rewrite (restart_exporter_after_loop self w 3).
    + fold (probe 3%nat). rewrite Hfail by lia. reflexivity.
    + rewrite HR. change (Z.to_nat 3) with 3%nat.
      apply restart_loop_all_fail; intros j Hj; [apply Hr | apply Hfail; lia].
  - intros i Hi Hbefore Hok confirmed Hconf. split.
    + rewrite (restart_exporter_after_loop self w (S i)).
      * fold (probe (S i)). rewrite Hconf. destruct confirmed; reflexivity.
      * rewrite HR. change (Z.to_nat 3) with 3%nat.
        apply restart_loop_first_success; auto.
    + rewrite count_occ_app, attempts_count_restart. simpl. lia.
Qed.

Lemma restart_exporter_three_attempts_witness :
  restart_exporter
    (sample_charm 1 (sample_config 8080 "info") (unhealthy_ext (fun _ => Ok false)))
    installed_world
  = (Raise (ExporterError (EXPORTER_CRASH_MSG sample_consts)
              (Some (ExporterError (EXPORTER_CRASH_MSG sample_consts) None))),
     after_calls [ExporterRestart; Sleep; ExporterCheckActive;
                  ExporterRestart; Sleep; ExporterCheckActive;
                  ExporterRestart; Sleep; ExporterCheckActive;
                  ExporterCheckActive] installed_world).
Proof.
  apply (proj1 (restart_exporter_three_attempts
           (sample_charm 1 (sample_config 8080 "info")
              (unhealthy_ext (fun _ => Ok false)))
           installed_world eq_refl (fun _ => eq_refl))).
  intros j Hj. reflexivity.
Defined.

(** C4, against the claim as written: the probe of the first attempt
    succeeds, the loop stops after that attempt, and the fatal error is
    raised all the same, because the probe made after the loop fails. *)
Lemma restart_exporter_early_stop_still_fatal :
  EXPORTER_HEALTH_RETRY_COUNT (consts flapping_charm) = 3 /\
  exporter_check_active (ext flapping_charm)
    (calls ExporterCheckActive installed_world) = Ok true /\
  restart_exporter flapping_charm installed_world
  = (Raise (ExporterError (EXPORTER_CRASH_MSG sample_consts)
              (Some (ExporterError (EXPORTER_CRASH_MSG sample_consts) None))),
     after_calls [ExporterRestart; Sleep; ExporterCheckActive;
                  ExporterCheckActive] installed_world).
Proof. repeat split. Qed.

(** ** The evaluator *)

Ltac enter_update_status Hres Hnum :=
  unfold _on_update_status, bind at 1, get_stored;
  rewrite Hres;
  unfold exporter_enabled, too_many_cos_agent_relations;
  rewrite Hnum;
  cbn [negb Nat.eqb Nat.ltb Nat.leb].

(** The evaluator up to the health check, when the earlier checks pass and
    the exporter is unhealthy: what remains is the restart supervisor. *)
Lemma update_status_unhealthy
    (self : Charm) (ev : EventBase) (w w1 : World) (m1 m2 : string) :
  resource_installed (stored w) = true ->
  num_cos_agent_relations self = 1%nat ->
  validate_exporter_configs self w = (Ok (true, m1), w1) ->
  tool_check_installed (ext self) (calls ToolCheckInstalled w1) = Ok (true, m2) ->
  exporter_check_health (ext self) (calls ExporterCheckHealth w1) = Ok false ->
  _on_update_status self ev w
  = match restart_exporter self
            (log_call ExporterCheckHealth (log_call ToolCheckInstalled w1)) with
    | (Ok _, w4) => (Ok tt, set_unit_status (ActiveStatus "Unit is ready") w4)
    | (Raise e, w4) => (Raise e, w4)
    end.
Proof.
  intros Hres Hnum Hval Htool Hhealth.
  enter_update_status Hres Hnum.
  unfold bind at 1. rewrite Hval. cbn [negb].
  unfold bind at 1. unfold call at 1. rewrite Htool. cbn [negb].
  unfold bind at 1. unfold call at 1. step_calls. rewrite Hhealth. cbn [negb].
  unfold bind at 1.
  destruct (restart_exporter self _) as [[[] | e] w4]; reflexivity.
Qed.

(** C5: when the evaluator reaches the health check and the exporter is
    unhealthy, an exception raised by [restart_exporter] is the outcome of
    [_on_update_status] itself, and the unit status and the flags are those
    from before the call: neither Blocked nor Active is written.  An error
    raised inside the supervisor's try block reaches the caller as an
    ExporterError whose cause is that error, and when all probes fail the
    evaluator raises the ExporterError of the exhausted supervisor. *)
Theorem restart_failure_propagates
    (self : Charm) (ev : EventBase) (w w1 : World) (m1 m2 : string) :
  resource_installed (stored w) = true ->
  num_cos_agent_relations self = 1%nat ->
  validate_exporter_configs self w = (Ok (true, m1), w1) ->
  tool_check_installed (ext self) (calls ToolCheckInstalled w1) = Ok (true, m2) ->
  exporter_check_health (ext self) (calls ExporterCheckHealth w1) = Ok false ->
  let w3 := log_call ExporterCheckHealth (log_call ToolCheckInstalled w1) in
  let crash := EXPORTER_CRASH_MSG (consts self) in
  (forall e w4,
     restart_exporter self w3 = (Raise e, w4) ->
     _on_update_status self ev w = (Raise e, w4) /\
     unit_status w4 = unit_status w /\ stored w4 = stored w) /\
  (forall e w4,
     restart_try_block self w3 = (Raise e, w4) -> is_Exception e = true ->
     _on_update_status self ev w = (Raise (ExporterError crash (Some e)), w4)) /\
  ((forall j, exporter_restart (ext self) (calls ExporterRestart w3 + j) = Ok tt) ->
   (forall j, exporter_check_active (ext self) (calls ExporterCheckActive w3 + j)
              = Ok false) ->
   exists w4,
     _on_update_status self ev w
     = (Raise (ExporterError crash (Some (ExporterError crash None))), w4) /\
     unit_status w4 = unit_status w /\ stored w4 = stored w).
Proof.
  intros Hres Hnum Hval Htool Hhealth w3 crash.
  pose proof (update_status_unhealthy self ev w w1 m1 m2
                Hres Hnum Hval Htool Hhealth) as Hrun.
  fold w3 in Hrun.
  assert (Hw1 : only_calls credential_call w w1).
  { pose proof (validate_exporter_configs_frames self w) as H.
    simpl in H. now rewrite Hval in H. }
  assert (Hkeep : forall r w4, restart_exporter self w3 = (r, w4) ->
            unit_status w4 = unit_status w /\ stored w4 = stored w).
  { intros r w4 Hrst.
    pose proof (restart_exporter_frames self w3) as H.
    simpl in H. rewrite Hrst in H. simpl in H.
    rewrite (only_calls_unit_status _ _ _ H), (only_calls_stored _ _ _ H).
    unfold w3. cbn [unit_status stored log_call].
    split; [eapply only_calls_unit_status | eapply only_calls_stored];
      eassumption. }
  split; [| split].
  - intros e w4 Hrst. split; [| now apply (Hkeep (Raise e))].
    rewrite Hrun, Hrst. reflexivity.
  - intros e w4 Hblock Hexc.
    rewrite Hrun, (restart_exporter_wraps self w3 w4 e Hblock), Hexc.
    reflexivity.
  - intros Hr Hfail.
    pose proof (restart_exporter_after_loop self w3
                  (Z.to_nat (EXPORTER_HEALTH_RETRY_COUNT (consts self)))) as Hrst.
    rewrite Hfail in Hrst.
    specialize (Hrst (restart_loop_all_fail self _ w3
                        (fun j _ => Hr j) (fun j _ => Hfail j))).
    eexists. split; [| now apply (Hkeep _ _ Hrst)].
    rewrite Hrun, Hrst. reflexivity.
Qed.

Lemma restart_failure_propagates_witness :
  exists w4,
    _on_update_status
      (sample_charm 1 (sample_config 8080 "info") (unhealthy_ext (fun _ => Ok false)))
      sample_event installed_world
    = (Raise (ExporterError (EXPORTER_CRASH_MSG sample_consts)
                (Some (ExporterError (EXPORTER_CRASH_MSG sample_consts) None))),
       w4) /\
    unit_status w4 = unit_status installed_world /\
    stored w4 = stored installed_world.
Proof.
  apply (proj2 (proj2 (restart_failure_propagates
           (sample_charm 1 (sample_config 8080 "info")
              (unhealthy_ext (fun _ => Ok false)))
           sample_event installed_world (log_call BmcHwVerifier installed_world)
           "Exporter config is valid." ""
           eq_refl eq_refl eq_refl eq_refl eq_refl)));
    intros j; reflexivity.
Defined.

Lemma update_status_skips (self : Charm) (ev : EventBase) (w : World) :
  resource_installed (stored w) = false ->
  _on_update_status self ev w = (Ok tt, w).
Proof.
  intros Hres. unfold _on_update_status, bind, get_stored.
  rewrite Hres. reflexivity.
Qed.

Lemma update_status_no_relation (self : Charm) (ev : EventBase) (w : World) :
  resource_installed (stored w) = true ->
  num_cos_agent_relations self = 0%nat ->
  _on_update_status self ev w
  = (Ok tt, set_unit_status (BlockedStatus "Missing relation: [cos-agent]") w).
Proof. intros Hres Hnum. enter_update_status Hres Hnum. reflexivity. Qed.

Lemma update_status_too_many (self : Charm) (ev : EventBase) (w : World) :
  resource_installed (stored w) = true ->
  (1 < num_cos_agent_relations self)%nat ->
  _on_update_status self ev w
  = (Ok tt, set_unit_status
              (BlockedStatus "Cannot relate to more than one grafana-agent") w).
Proof.
  intros Hres Hnum.
  unfold _on_update_status, bind at 1, get_stored. rewrite Hres.
  unfold exporter_enabled, too_many_cos_agent_relations.
  destruct (Nat.eqb_spec (num_cos_agent_relations self) 0); [lia |].
  destruct (Nat.ltb_spec 1 (num_cos_agent_relations self)); [| lia].
  reflexivity.
Qed.

Lemma update_status_config_invalid
    (self : Charm) (ev : EventBase) (w w1 : World) (reason : string) :
  resource_installed (stored w) = true ->
  num_cos_agent_relations self = 1%nat ->
  validate_exporter_configs self w = (Ok (false, reason), w1) ->
  _on_update_status self ev w
  = (Ok tt, set_unit_status (BlockedStatus reason) w1).
Proof.
  intros Hres Hnum Hval. enter_update_status Hres Hnum.
  unfold bind at 1. rewrite Hval. reflexivity.
Qed.

Lemma update_status_tool_failure
    (self : Charm) (ev : EventBase) (w w1 : World) (m1 reason : string) :
  resource_installed (stored w) = true ->
  num_cos_agent_relations self = 1%nat ->
  validate_exporter_configs self w = (Ok (true, m1), w1) ->
  tool_check_installed (ext self) (calls ToolCheckInstalled w1) = Ok (false, reason) ->
  _on_update_status self ev w
  = (Ok tt, set_unit_status (BlockedStatus reason) (log_call ToolCheckInstalled w1)).
Proof.
  intros Hres Hnum Hval Htool. enter_update_status Hres Hnum.
  unfold bind at 1. rewrite Hval. cbn [negb].
  unfold bind at 1. unfold call at 1. rewrite Htool. reflexivity.
Qed.

Lemma update_status_healthy
    (self : Charm) (ev : EventBase) (w w1 : World) (m1 m2 : string) :
  resource_installed (stored w) = true ->
  num_cos_agent_relations self = 1%nat ->
  validate_exporter_configs self w = (Ok (true, m1), w1) ->
  tool_check_installed (ext self) (calls ToolCheckInstalled w1) = Ok (true, m2) ->
  exporter_check_health (ext self) (calls ExporterCheckHealth w1) = Ok true ->
  _on_update_status self ev w
  = (Ok tt, set_unit_status (ActiveStatus "Unit is ready")
              (log_call ExporterCheckHealth (log_call ToolCheckInstalled w1))).
Proof.
  intros Hres Hnum Hval Htool Hhealth. enter_update_status Hres Hnum.
  unfold bind at 1. rewrite Hval. cbn [negb].
  unfold bind at 1. unfold call at 1. rewrite Htool. cbn [negb].
  unfold bind at 1. unfold call at 1. step_calls. rewrite Hhealth.
  reflexivity.
Qed.

(** C1: with [resource_installed] true the evaluator applies its checks in
    the order relation count 0, relation count above 1, configuration,
    tools, health, and stops at the first that fails: the status written is
    that of the first failing check, the later checks are not run (the world
    holds no call of theirs), and zero relations gives the missing-relation
    status whatever the configuration is.  When all pass and the exporter is
    healthy, or is unhealthy and the restart supervisor returns, the status
    is Active("Unit is ready"). *)
Theorem update_status_precedence (self : Charm) (ev : EventBase) (w : World) :
  resource_installed (stored w) = true ->
  (num_cos_agent_relations self = 0%nat ->
     _on_update_status self ev w
     = (Ok tt, set_unit_status (BlockedStatus "Missing relation: [cos-agent]") w)) /\
  ((1 < num_cos_agent_relations self)%nat ->
     _on_update_status self ev w
     = (Ok tt, set_unit_status
                 (BlockedStatus "Cannot relate to more than one grafana-agent") w)) /\
  (num_cos_agent_relations self = 1%nat ->
     forall valid reason w1,
       validate_exporter_configs self w = (Ok (valid, reason), w1) ->
       (valid = false ->
          _on_update_status self ev w
          = (Ok tt, set_unit_status (BlockedStatus reason) w1)) /\
       (valid = true ->
          forall ok msg,
            tool_check_installed (ext self) (calls ToolCheckInstalled w1)
            = Ok (ok, msg) ->
            (ok = false ->
               _on_update_status self ev w
               = (Ok tt, set_unit_status (BlockedStatus msg)
                           (log_call ToolCheckInstalled w1))) /\
            (ok = true ->
               let w3 := log_call ExporterCheckHealth
                           (log_call ToolCheckInstalled w1) in
               (exporter_check_health (ext self) (calls ExporterCheckHealth w1)
                = Ok true ->
                  _on_update_status self ev w
                  = (Ok tt, set_unit_status (ActiveStatus "Unit is ready") w3)) /\
               (exporter_check_health (ext self) (calls ExporterCheckHealth w1)
                = Ok false ->
                  forall w4,
                    restart_exporter self w3 = (Ok tt, w4) ->
                    _on_update_status self ev w
                    = (Ok tt, set_unit_status (ActiveStatus "Unit is ready") w4))))).
Proof.
  intros Hres. split; [| split].
  - now apply update_status_no_relation.
  - now apply update_status_too_many.
  - intros Hnum valid reason w1 Hval. split.
    + intros ->. now apply update_status_config_invalid.
    + intros -> ok msg Htool. split.
      * intros ->. now apply (update_status_tool_failure self ev w w1 reason).
      * intros -> w3. split.
        -- intros Hh. now apply (update_status_healthy self ev w w1 reason msg).
        -- intros Hh w4 Hrst.
           rewrite (update_status_unhealthy self ev w w1 reason msg) by assumption.
           fold w3. now rewrite Hrst.
Qed.

Lemma update_status_precedence_witness :
  _on_update_status
    (sample_charm 0 (sample_config 0 "verbose") healthy_ext)
    sample_event installed_world
  = (Ok tt, set_unit_status (BlockedStatus "Missing relation: [cos-agent]")
              installed_world) /\
  _on_update_status
    (sample_charm 2 (sample_config 0 "verbose") healthy_ext)
    sample_event installed_world
  = (Ok tt, set_unit_status
              (BlockedStatus "Cannot relate to more than one grafana-agent")
              installed_world) /\
  _on_update_status
    (sample_charm 1 (sample_config 0 "verbose") all_failing_ext)
    sample_event installed_world
  = (Ok tt, set_unit_status (BlockedStatus "Invalid config: 'exporter-port'")
              installed_world) /\
  _on_update_status
    (sample_charm 1 (sample_config 8080 "info") (unhealthy_ext (fun _ => Ok true)))
    sample_event installed_world
  = (Ok tt, set_unit_status (ActiveStatus "Unit is ready")
              (after_calls [BmcHwVerifier; ToolCheckInstalled; ExporterCheckHealth;
                            ExporterRestart; Sleep; ExporterCheckActive;
                            ExporterCheckActive] installed_world)).
Proof.
  split; [| split; [| split]].
  - apply (proj1 (update_status_precedence
             (sample_charm 0 (sample_config 0 "verbose") healthy_ext)
             sample_event installed_world eq_refl)).
    reflexivity.
  - apply (proj1 (proj2 (update_status_precedence
             (sample_charm 2 (sample_config 0 "verbose") healthy_ext)
             sample_event installed_world eq_refl))).
    vm_compute. lia.
  - apply (proj1 (proj2 (proj2 (update_status_precedence
             (sample_charm 1 (sample_config 0 "verbose") all_failing_ext)
             sample_event installed_world eq_refl)) eq_refl
             false "Invalid config: 'exporter-port'" installed_world eq_refl)).
    reflexivity.
  - apply (proj2 (proj2 (proj2 (proj2 (proj2 (update_status_precedence
             (sample_charm 1 (sample_config 8080 "info")
                (unhealthy_ext (fun _ => Ok true)))
             sample_event installed_world eq_refl)) eq_refl
             true "Exporter config is valid."
             (log_call BmcHwVerifier installed_world) eq_refl) eq_refl
             true "" eq_refl) eq_refl)); reflexivity.
Defined.

(** ** Configuration changes before the installation completed *)

Lemma config_changed_deferred_no_relation
    (self : Charm) (ev : EventBase) (w : World) :
  resource_installed (stored w) = false ->
  num_cos_agent_relations self = 0%nat ->
  _on_config_changed self ev w = (Ok tt, log_call EventDefer w).
Proof.
  intros Hres Hnum.
  unfold _on_config_changed, bind at 1, get_stored. rewrite Hres.
  cbn [negb]. unfold bind at 1, defer, call at 1.
  unfold exporter_enabled. rewrite Hnum. cbn [Nat.eqb negb].
  now apply update_status_skips.
Qed.

(** C3, the code at the failing inputs: with [resource_installed] false and
    one relation, [_on_config_changed] defers the event and then goes on in
    the same call.  With an invalid port it validates the configuration and
    writes Blocked; with a valid configuration it validates, renders the
    exporter configuration and restarts the exporter. *)
Theorem config_changed_continues_after_defer :
  _on_config_changed
    (sample_charm 1 (sample_config 0 "info") healthy_ext)
    sample_event failed_install_world
  = (Ok tt, set_unit_status (BlockedStatus "Invalid config: 'exporter-port'")
              (log_call EventDefer failed_install_world)) /\
  _on_config_changed
    (sample_charm 1 (sample_config 8080 "info") healthy_ext)
    sample_event failed_install_world
  = (Ok tt, after_calls [EventDefer; BmcHwVerifier; BmcHwVerifier;
                         RenderConfig; ExporterRestart] failed_install_world).
Proof. split; reflexivity. Qed.

(** ** The status as a function of what an evaluation reads *)

(** The supervisor reads the world only through the numbers of restart
    requests and liveness probes made so far. *)
Lemma restart_loop_indep (self : Charm) (n : nat) :
  forall w w',
    calls ExporterRestart w = calls ExporterRestart w' ->
    calls ExporterCheckActive w = calls ExporterCheckActive w' ->
    fst (restart_loop self n w) = fst (restart_loop self n w') /\
    calls ExporterRestart (snd (restart_loop self n w))
    = calls ExporterRestart (snd (restart_loop self n w')) /\
    calls ExporterCheckActive (snd (restart_loop self n w))
    = calls ExporterCheckActive (snd (restart_loop self n w')).
Proof.
  induction n as [| n IH]; intros w w' Hr Ha.
  - cbn. auto.
  - cbn [restart_loop]. unfold bind, sleep, call, ret. rewrite <- Hr.
    destruct (exporter_restart (ext self) (calls ExporterRestart w)) as [[] | e].
    + step_calls. rewrite <- Ha.
      destruct (exporter_check_active (ext self) (calls ExporterCheckActive w))
        as [[|] | e]; cbn [fst snd]; step_calls.
      * rewrite Hr, Ha. auto.
      * apply IH; step_calls; congruence.
      * rewrite Hr, Ha. auto.
    + cbn [fst snd]. step_calls. rewrite Hr, Ha. auto.
Qed.

Lemma restart_exporter_indep (self : Charm) (w w' : World) :
  calls ExporterRestart w = calls ExporterRestart w' ->
  calls ExporterCheckActive w = calls ExporterCheckActive w' ->
  fst (restart_exporter self w) = fst (restart_exporter self w').
Proof.
  intros Hr Ha.
  destruct (restart_loop_indep self
              (Z.to_nat (EXPORTER_HEALTH_RETRY_COUNT (consts self))) w w' Hr Ha)
    as (Hres & _ & Hprobe).
  unfold restart_exporter, try_except_Exception, restart_try_block, bind.
  destruct (restart_loop self _ w) as [[[] | e] v];
    destruct (restart_loop self _ w') as [[[] | e'] v'];
    cbn [fst snd] in *; try discriminate.
  - unfold call. rewrite Hprobe.
    destruct (exporter_check_active (ext self) (calls ExporterCheckActive v'))
      as [[|] | e]; cbn; try reflexivity.
    destruct (is_Exception e); reflexivity.
  - injection Hres as ->. destruct (is_Exception e'); reflexivity.
Qed.

Lemma status_rule_idempotent (installed : bool) (facts : ObservedFacts)
    (supervisor : res unit) (previous : Status) :
  status_rule installed facts supervisor
    (status_rule installed facts supervisor previous)
  = status_rule installed facts supervisor previous.
Proof.
  unfold status_rule.
  destruct installed; cbn [negb]; [| reflexivity].
  destruct (Nat.eqb (relationCount facts) 0); [reflexivity |].
  destruct (Nat.ltb 1 (relationCount facts)); [reflexivity |].
  destruct (configValid facts) as [[[|] ?] | ?]; try reflexivity.
  destruct (toolsOk facts) as [[[|] ?] | ?]; try reflexivity.
  destruct (exporterHealthy facts) as [[|] | ?]; try reflexivity.
  destruct supervisor; reflexivity.
Qed.

Lemma update_status_config_raises
    (self : Charm) (ev : EventBase) (w w1 : World) (e : exn) :
  resource_installed (stored w) = true ->
  num_cos_agent_relations self = 1%nat ->
  validate_exporter_configs self w = (Raise e, w1) ->
  _on_update_status self ev w = (Raise e, w1).
Proof.
  intros Hres Hnum Hval. enter_update_status Hres Hnum.
  unfold bind at 1. now rewrite Hval.
Qed.

Lemma update_status_tool_raises
    (self : Charm) (ev : EventBase) (w w1 : World) (m1 : string) (e : exn) :
  resource_installed (stored w) = true ->
  num_cos_agent_relations self = 1%nat ->
  validate_exporter_configs self w = (Ok (true, m1), w1) ->
  tool_check_installed (ext self) (calls ToolCheckInstalled w1) = Raise e ->
  _on_update_status self ev w = (Raise e, log_call ToolCheckInstalled w1).
Proof.
  intros Hres Hnum Hval Htool. enter_update_status Hres Hnum.
  unfold bind at 1. rewrite Hval. cbn [negb].
  unfold bind at 1. unfold call at 1. now rewrite Htool.
Qed.

Lemma update_status_health_raises
    (self : Charm) (ev : EventBase) (w w1 : World) (m1 m2 : string) (e : exn) :
  resource_installed (stored w) = true ->
  num_cos_agent_relations self = 1%nat ->
  validate_exporter_configs self w = (Ok (true, m1), w1) ->
  tool_check_installed (ext self) (calls ToolCheckInstalled w1) = Ok (true, m2) ->
  exporter_check_health (ext self) (calls ExporterCheckHealth w1) = Raise e ->
  _on_update_status self ev w
  = (Raise e, log_call ExporterCheckHealth (log_call ToolCheckInstalled w1)).
Proof.
  intros Hres Hnum Hval Htool Hhealth. enter_update_status Hres Hnum.
  unfold bind at 1. rewrite Hval. cbn [negb].
  unfold bind at 1. unfold call at 1. rewrite Htool. cbn [negb].
  unfold bind at 1. unfold call at 1. step_calls. now rewrite Hhealth.
Qed.

(** What one evaluation does to the flags and to the status. *)
Lemma update_status_effect (self : Charm) (ev : EventBase) (w : World) :
  stored (snd (_on_update_status self ev w)) = stored w /\
  unit_status (snd (_on_update_status self ev w))
  = status_rule (resource_installed (stored w)) (observed self w)
                (fst (restart_exporter self w)) (unit_status w).
Proof.
  unfold status_rule, observed.
  cbn [relationCount configValid toolsOk exporterHealthy].
  destruct (resource_installed (stored w)) eqn:Hres; cbn [negb].
  2:{ rewrite update_status_skips by assumption. auto. }
  destruct (num_cos_agent_relations self) as [| [| k]] eqn:Hnum.
  - rewrite update_status_no_relation by assumption. auto.
  - cbn [Nat.eqb Nat.ltb Nat.leb].
    pose proof (validate_exporter_configs_frames self w) as Hw1. simpl in Hw1.
    destruct (validate_exporter_configs self w) as [[[valid reason] | e] w1] eqn:Hval;
      cbn [fst snd] in *.
    2:{ rewrite (update_status_config_raises self ev w w1 e) by assumption.
        cbn [snd]. split;
          [eapply only_calls_stored | eapply only_calls_unit_status]; eassumption. }
    destruct valid.
    2:{ rewrite (update_status_config_invalid self ev w w1 reason) by assumption.
        cbn [snd set_unit_status stored unit_status]. split; [| reflexivity].
        eapply only_calls_stored; eassumption. }
    rewrite <- (only_calls_calls _ _ _ ToolCheckInstalled Hw1 eq_refl).
    rewrite <- (only_calls_calls _ _ _ ExporterCheckHealth Hw1 eq_refl).
    destruct (tool_check_installed (ext self) (calls ToolCheckInstalled w1))
      as [[ok msg] | e] eqn:Htool.
    2:{ rewrite (update_status_tool_raises self ev w w1 reason e) by assumption.
        cbn [snd log_call stored unit_status]. split;
          [eapply only_calls_stored | eapply only_calls_unit_status]; eassumption. }
    destruct ok.
    2:{ rewrite (update_status_tool_failure self ev w w1 reason msg) by assumption.
        cbn [snd set_unit_status log_call stored unit_status]. split; [| reflexivity].
        eapply only_calls_stored; eassumption. }
    destruct (exporter_check_health (ext self) (calls ExporterCheckHealth w1))
      as [[|] | e] eqn:Hhealth.
    + rewrite (update_status_healthy self ev w w1 reason msg) by assumption.
      cbn [snd set_unit_status log_call stored unit_status]. split; [| reflexivity].
      eapply only_calls_stored; eassumption.
    + rewrite (update_status_unhealthy self ev w w1 reason msg) by assumption.
      set (w3 := log_call ExporterCheckHealth (log_call ToolCheckInstalled w1)).
      assert (Hindep : fst (restart_exporter self w) = fst (restart_exporter self w3)).
      { apply restart_exporter_indep; unfold w3; step_calls; symmetry;
          eapply only_calls_calls; try eassumption; reflexivity. }
      rewrite Hindep.
      pose proof (restart_exporter_frames self w3) as Hw4. simpl in Hw4.
      destruct (restart_exporter self w3) as [[[] | e] w4]; cbn [fst snd] in *.
      * cbn [set_unit_status stored unit_status]. split; [| reflexivity].
        rewrite (only_calls_stored _ _ _ Hw4). unfold w3. cbn [log_call stored].
        eapply only_calls_stored; eassumption.
      * rewrite (only_calls_stored _ _ _ Hw4), (only_calls_unit_status _ _ _ Hw4).
        unfold w3. cbn [log_call stored unit_status]. split;
          [eapply only_calls_stored | eapply only_calls_unit_status]; eassumption.
    + rewrite (update_status_health_raises self ev w w1 reason msg e) by assumption.
      cbn [snd log_call stored unit_status]. split;
        [eapply only_calls_stored | eapply only_calls_unit_status]; eassumption.
  - rewrite update_status_too_many by (assumption || lia). auto.
Qed.

(** C2 (as amended): the status after an evaluation is the value of
    [status_rule] at the installed flag, the facts the evaluation reads, the
    outcome of the restart supervisor and the status before the call; the
    evaluation changes no flag; so a second evaluation that reads the same
    facts and meets the same supervisor outcome leaves the status of the
    first. *)
Theorem update_status_idempotent (self : Charm) (ev : EventBase) (w : World) :
  let w1 := snd (_on_update_status self ev w) in
  let w2 := snd (_on_update_status self ev w1) in
  unit_status w1
  = status_rule (resource_installed (stored w)) (observed self w)
                (fst (restart_exporter self w)) (unit_status w) /\
  stored w1 = stored w /\
  (observed self w1 = observed self w ->
   fst (restart_exporter self w1) = fst (restart_exporter self w) ->
   unit_status w2 = unit_status w1).
Proof.
  intros w1 w2.
  destruct (update_status_effect self ev w) as (Hst & Hstatus).
  destruct (update_status_effect self ev w1) as (_ & Hstatus2).
  fold w1 in Hst, Hstatus. fold w2 in Hstatus2.
  split; [exact Hstatus | split; [exact Hst |]].
  intros Hobs Hsup.
  rewrite Hstatus2, Hst, Hobs, Hsup, Hstatus.
  apply status_rule_idempotent.
Qed.

Lemma update_status_idempotent_witness :
  unit_status
    (snd (_on_update_status
            (sample_charm 1 (sample_config 8080 "info")
               (unhealthy_ext (fun _ => Ok true)))
            sample_event
            (snd (_on_update_status
                    (sample_charm 1 (sample_config 8080 "info")
                       (unhealthy_ext (fun _ => Ok true)))
                    sample_event installed_world))))
  = unit_status
      (snd (_on_update_status
              (sample_charm 1 (sample_config 8080 "info")
                 (unhealthy_ext (fun _ => Ok true)))
              sample_event installed_world)).
Proof.
  apply (proj2 (proj2 (update_status_idempotent
           (sample_charm 1 (sample_config 8080 "info")
              (unhealthy_ext (fun _ => Ok true)))
           sample_event installed_world))); reflexivity.
Defined.

(** C2, against the claim as written: two successive evaluations with the
    same flags and the same four observed facts (one relation, valid
    configuration, tools present, exporter unhealthy).  In the first the
    liveness probes of the supervisor all fail, the evaluation raises and the
    status stays Maintenance; in the second a probe succeeds and the status
    becomes Active. *)
Lemma update_status_not_function_of_facts :
  stored (snd (_on_update_status late_recovery_charm sample_event installed_world))
  = stored installed_world /\
  observed late_recovery_charm
    (snd (_on_update_status late_recovery_charm sample_event installed_world))
  = observed late_recovery_charm installed_world /\
  unit_status
    (snd (_on_update_status late_recovery_charm sample_event installed_world))
  = MaintenanceStatus "Installing exporter..." /\
  unit_status
    (snd (_on_update_status late_recovery_charm sample_event
            (snd (_on_update_status late_recovery_charm sample_event
                    installed_world))))
  = ActiveStatus "Unit is ready".
Proof. repeat split. Qed.

(** ** Further properties of the restart supervisor *)

(** The loop when the restart request of attempt [i + 1] raises after [i]
    failed attempts. *)
Lemma restart_loop_restart_raises_at (self : Charm) (i : nat) :
  forall n w e,
    (i < n)%nat ->
    (forall j, (j < i)%nat ->
       exporter_restart (ext self) (calls ExporterRestart w + j) = Ok tt) ->
    (forall j, (j < i)%nat ->
       exporter_check_active (ext self) (calls ExporterCheckActive w + j) = Ok false) ->
    exporter_restart (ext self) (calls ExporterRestart w + i) = Raise e ->
    restart_loop self n w
    = (Raise e, after_calls (attempts i ++ [ExporterRestart]) w).
Proof.
  induction i as [| i IH]; intros n w e Hlt Hr Ha He.
  - destruct n as [| n]; [lia |].
    rewrite Nat.add_0_r in He.
    now rewrite (restart_loop_restart_raises self n w e He).
  - destruct n as [| n]; [lia |].
    rewrite restart_loop_step.
    2:{ specialize (Hr 0%nat). rewrite Nat.add_0_r in Hr. apply Hr. lia. }
    pose proof (Ha 0%nat) as Ha0. rewrite Nat.add_0_r in Ha0.
    rewrite Ha0 by lia.
    rewrite (IH n _ e).
    + rewrite after_calls_app. reflexivity.
    + lia.
    + intros j Hj. rewrite calls_restart_after_attempt.
      replace (S (calls ExporterRestart w) + j)%nat
        with (calls ExporterRestart w + S j)%nat by lia.
      apply Hr. lia.
    + intros j Hj. rewrite calls_probe_after_attempt.
      replace (S (calls ExporterCheckActive w) + j)%nat
        with (calls ExporterCheckActive w + S j)%nat by lia.
      apply Ha. lia.
    + rewrite calls_restart_after_attempt.
      replace (S (calls ExporterRestart w) + i)%nat
        with (calls ExporterRestart w + S i)%nat by lia.
      exact He.
Qed.

(** X1: when the restart request of attempt [i + 1] itself raises an error
    (after [i] attempts whose probes failed), [restart_exporter] stops at
    once: no sleep, no probe and no further attempt follow, and it raises
    the ExporterError with that error as its cause. *)
Theorem restart_request_error_is_fatal
    (self : Charm) (w : World) (i : nat) (e : exn) :
  (i < Z.to_nat (EXPORTER_HEALTH_RETRY_COUNT (consts self)))%nat ->
  (forall j, (j < i)%nat ->
     exporter_restart (ext self) (calls ExporterRestart w + j) = Ok tt) ->
  (forall j, (j < i)%nat ->
     exporter_check_active (ext self) (calls ExporterCheckActive w + j) = Ok false) ->
  exporter_restart (ext self) (calls ExporterRestart w + i) = Raise e ->
  is_Exception e = true ->
  restart_exporter self w
  = (Raise (ExporterError (EXPORTER_CRASH_MSG (consts self)) (Some e)),
     after_calls (attempts i ++ [ExporterRestart]) w).
Proof.
  intros Hlt Hr Ha He Hexc.
  pose proof (restart_loop_restart_raises_at self i _ w e Hlt Hr Ha He) as Hloop.
  rewrite (restart_exporter_wraps self w
             (after_calls (attempts i ++ [ExporterRestart]) w) e).
  - now rewrite Hexc.
  - unfold restart_try_block, bind. now rewrite Hloop.
Qed.

Lemma restart_request_error_is_fatal_witness :
  restart_exporter
    (sample_charm 1 (sample_config 8080 "info") restart_fails_second_ext)
    installed_world
  = (Raise (ExporterError (EXPORTER_CRASH_MSG sample_consts)
              (Some (OtherException "CalledProcessError"))),
     after_calls [ExporterRestart; Sleep; ExporterCheckActive; ExporterRestart]
                 installed_world).
Proof.
  apply (restart_request_error_is_fatal
           (sample_charm 1 (sample_config 8080 "info") restart_fails_second_ext)
           installed_world 1 (OtherException "CalledProcessError")).
  - vm_compute. lia.
  - intros j Hj. assert (j = 0)%nat as -> by lia. reflexivity.
  - intros j Hj. assert (j = 0)%nat as -> by lia. reflexivity.
  - reflexivity.
  - reflexivity.
Defined.

(** X2: with a retry count of zero or less the loop body never runs: no
    restart is requested, and the single liveness probe made after the loop
    decides between returning and the fatal error. *)
Theorem restart_exporter_no_retries (self : Charm) (w : World) :
  EXPORTER_HEALTH_RETRY_COUNT (consts self) <= 0 ->
  restart_exporter self w
  = (match exporter_check_active (ext self) (calls ExporterCheckActive w) with
     | Ok true => Ok tt
     | Ok false =>
         Raise (ExporterError (EXPORTER_CRASH_MSG (consts self))
                  (Some (ExporterError (EXPORTER_CRASH_MSG (consts self)) None)))
     | Raise e =>
         if is_Exception e
         then Raise (ExporterError (EXPORTER_CRASH_MSG (consts self)) (Some e))
         else Raise e
     end,
     log_call ExporterCheckActive w).
Proof.
  intros HR.
  rewrite (restart_exporter_after_loop self w 0).
  - rewrite Nat.add_0_r. reflexivity.
  - replace (Z.to_nat (EXPORTER_HEALTH_RETRY_COUNT (consts self))) with 0%nat by lia.
    cbn. now rewrite after_calls_nil.
Qed.

Lemma restart_exporter_no_retries_witness :
  restart_exporter
    (mkCharm (mkModel (sample_config 8080 "info") [])
             (unhealthy_ext (fun _ => Ok false))
             (mkConstants "crashed" (-1) 3 2 3) 0)
    installed_world
  = (Raise (ExporterError "crashed" (Some (ExporterError "crashed" None))),
     log_call ExporterCheckActive installed_world).
Proof.
  apply (restart_exporter_no_retries
           (mkCharm (mkModel (sample_config 8080 "info") [])
                    (unhealthy_ext (fun _ => Ok false))
                    (mkConstants "crashed" (-1) 3 2 3) 0)
           installed_world).
  simpl. lia.
Defined.

Lemma restart_loop_bounded (self : Charm) (n : nat) :
  forall w,
    (calls ExporterRestart (snd (restart_loop self n w))
     <= calls ExporterRestart w + n)%nat /\
    (calls ExporterCheckActive (snd (restart_loop self n w))
     <= calls ExporterCheckActive w + n)%nat /\
    (calls Sleep (snd (restart_loop self n w)) <= calls Sleep w + n)%nat.
Proof.
  induction n as [| n IH]; intros w.
  - cbn. lia.
  - cbn [restart_loop]. unfold bind, sleep, call, ret.
    destruct (exporter_restart (ext self) (calls ExporterRestart w)) as [[] | e];
      cbn [fst snd]; [| step_calls; lia].
    step_calls.
    destruct (exporter_check_active (ext self) (calls ExporterCheckActive w))
      as [[|] | e]; cbn [fst snd]; try (step_calls; lia).
    specialize (IH (log_call ExporterCheckActive
                      (log_call Sleep (log_call ExporterRestart w)))).
    revert IH. step_calls. lia.
Qed.

(** X3: whatever the exporter answers and however the call ends,
    [restart_exporter] requests at most EXPORTER_HEALTH_RETRY_COUNT restarts,
    sleeps at most as often, makes at most one liveness probe more than
    that, and writes neither the unit status nor the persisted flags. *)
Theorem restart_exporter_bounded (self : Charm) (w : World) :
  let n := Z.to_nat (EXPORTER_HEALTH_RETRY_COUNT (consts self)) in
  let w' := snd (restart_exporter self w) in
  (calls ExporterRestart w' <= calls ExporterRestart w + n)%nat /\
  (calls Sleep w' <= calls Sleep w + n)%nat /\
  (calls ExporterCheckActive w' <= calls ExporterCheckActive w + n + 1)%nat /\
  unit_status w' = unit_status w /\ stored w' = stored w.
Proof.
  intros n w'.
  pose proof (restart_exporter_frames self w) as Hfr. simpl in Hfr. fold w' in Hfr.
  assert (Hb : (calls ExporterRestart w' <= calls ExporterRestart w + n)%nat /\
               (calls Sleep w' <= calls Sleep w + n)%nat /\
               (calls ExporterCheckActive w'
                <= calls ExporterCheckActive w + n + 1)%nat).
  { subst w'. unfold restart_exporter, try_except_Exception, restart_try_block,
      bind, call, ret, raise.
    destruct (restart_loop_bounded self n w) as (Hr & Ha & Hs). fold n.
    destruct (restart_loop self n w) as [[[] | e] v]; cbn [fst snd] in *.
    - destruct (exporter_check_active (ext self) (calls ExporterCheckActive v))
        as [[|] | e]; cbn [fst snd negb is_Exception];
        try destruct (is_Exception e); cbn [fst snd]; step_calls; lia.
    - destruct (is_Exception e); cbn [fst snd]; lia. }
  destruct Hb as (Hr & Hs & Ha).
  repeat split; try assumption.
  - eapply only_calls_unit_status; eassumption.
  - eapply only_calls_stored; eassumption.
Qed.

(** X4: every error that leaves [restart_exporter] is the ExporterError
    with the crash message and a cause; no other error class escapes. *)
Theorem restart_exporter_raises_only_fatal
    (self : Charm) (w w' : World) (e : exn) :
  restart_exporter self w = (Raise e, w') ->
  is_Exception e = true ->
  exists cause,
    e = ExporterError (EXPORTER_CRASH_MSG (consts self)) (Some cause) /\
    is_Exception cause = true.
Proof.
  unfold restart_exporter, try_except_Exception, raise.
  destruct (restart_try_block self w) as [[[] | c] v].
  - discriminate.
  - destruct (is_Exception c) eqn:Hc.
    + intros [= <- _] _. now exists c.
    + intros [= <- _] He. congruence.
Qed.

Lemma restart_exporter_raises_only_fatal_witness :
  exists cause,
    ExporterError (EXPORTER_CRASH_MSG sample_consts)
      (Some (OtherException "CalledProcessError"))
    = ExporterError
        (EXPORTER_CRASH_MSG
           (consts (sample_charm 1 (sample_config 8080 "info")
                      restart_fails_second_ext)))
        (Some cause) /\
    is_Exception cause = true.
Proof.
  apply (restart_exporter_raises_only_fatal
           (sample_charm 1 (sample_config 8080 "info") restart_fails_second_ext)
           installed_world
           (after_calls [ExporterRestart; Sleep; ExporterCheckActive; ExporterRestart]
                        installed_world)
           (ExporterError (EXPORTER_CRASH_MSG sample_consts)
              (Some (OtherException "CalledProcessError"))));
    reflexivity.
Defined.

(** ** Installation *)

(** Flags are kept by a computation. *)
Lemma keeps_flags_of_frames {A} (allowed : Call -> bool) (m : M World A) :
  frames (fun w => w) allowed m -> keeps_flags m.
Proof. intros Hm w. exact (only_calls_stored _ _ _ (Hm w)). Qed.

Lemma keeps_flags_ret {A} (a : A) : keeps_flags (@ret World A a).
Proof. intros w. reflexivity. Qed.

Lemma keeps_flags_call {A} (c : Call) (answer : nat -> res A) :
  keeps_flags (call c answer).
Proof. intros w. reflexivity. Qed.

Lemma keeps_flags_set_status (st : Status) : keeps_flags (set_status st).
Proof. intros w. reflexivity. Qed.

Lemma keeps_flags_get_stored : keeps_flags get_stored.
Proof. intros w. reflexivity. Qed.

Lemma keeps_flags_bind {A B} (m : M World A) (k : A -> M World B) :
  keeps_flags m -> (forall a, keeps_flags (k a)) -> keeps_flags (bind m k).
Proof.
  intros Hm Hk w. unfold bind. specialize (Hm w).
  destruct (m w) as [[a | e] w1]; cbn [snd] in *.
  - now rewrite Hk.
  - exact Hm.
Qed.

Lemma keeps_flags_update_status (self : Charm) (ev : EventBase) :
  keeps_flags (_on_update_status self ev).
Proof. intros w. apply update_status_effect. Qed.

Lemma keeps_flags_validate (self : Charm) :
  keeps_flags (validate_exporter_configs self).
Proof.
  eapply keeps_flags_of_frames. apply validate_exporter_configs_frames.
Qed.

Lemma keeps_flags_get_redfish_conn_params (self : Charm) :
  keeps_flags (get_redfish_conn_params self).
Proof.
  eapply keeps_flags_of_frames. apply get_redfish_conn_params_frames.
Qed.

Ltac keeps_flags_step :=
  first
    [ apply keeps_flags_ret
    | apply keeps_flags_call
    | apply keeps_flags_set_status
    | apply keeps_flags_get_stored
    | apply keeps_flags_update_status
    | apply keeps_flags_validate
    | apply keeps_flags_get_redfish_conn_params
    | apply keeps_flags_bind; [| intros ?]
    | match goal with
      | |- keeps_flags (if ?b then _ else _) => destruct b
      | |- keeps_flags (match ?x with _ => _ end) => destruct x
      end ].

Lemma install_tool_failure
    (self : Charm) (ev : EventBase) (w : World) (msg : string) :
  tool_install (ext self) (calls ToolInstall w) = Ok (false, msg) ->
  _on_install_or_upgrade self ev w
  = (Ok tt, mkWorld (mkStored (exporter_installed (stored w)) false)
                    (BlockedStatus msg) (trace w ++ [ToolInstall])).
Proof.
  intros Htool.
  unfold _on_install_or_upgrade, bind, set_status, modify, call.
  step_calls. rewrite Htool. reflexivity.
Qed.

(** X5: when the tool installation reports failure, the install handler
    records [resource_installed] as false, sets Blocked with the tool's
    message and stops: the exporter is not installed and its flag is not
    written.  A later update-status evaluation, in any environment, then
    changes nothing, so that Blocked status stays. *)
Theorem install_tool_failure_blocks
    (self : Charm) (ev : EventBase) (w : World) (msg : string) :
  tool_install (ext self) (calls ToolInstall w) = Ok (false, msg) ->
  exists w',
    _on_install_or_upgrade self ev w = (Ok tt, w') /\
    resource_installed (stored w') = false /\
    exporter_installed (stored w') = exporter_installed (stored w) /\
    unit_status w' = BlockedStatus msg /\
    trace w' = (trace w ++ [ToolInstall])%list /\
    forall self' ev', _on_update_status self' ev' w' = (Ok tt, w').
Proof.
  intros Htool. eexists. split; [exact (install_tool_failure self ev w msg Htool) |].
  repeat split.
Qed.

Lemma install_tool_failure_blocks_witness :
  exists w',
    _on_install_or_upgrade
      (sample_charm 1 (sample_config 8080 "info") tool_install_fails_ext)
      sample_event fresh_world = (Ok tt, w') /\
    resource_installed (stored w') = false /\
    exporter_installed (stored w') = exporter_installed (stored fresh_world) /\
    unit_status w' = BlockedStatus "Missing resources: storcli" /\
    trace w' = (trace fresh_world ++ [ToolInstall])%list /\
    forall self' ev', _on_update_status self' ev' w' = (Ok tt, w').
Proof.
  apply (install_tool_failure_blocks
           (sample_charm 1 (sample_config 8080 "info") tool_install_fails_ext)
           sample_event fresh_world "Missing resources: storcli").
  reflexivity.
Defined.

(** X6: when the tools install and the exporter installation reports
    failure, the handler ends with [resource_installed] true,
    [exporter_installed] false and the Blocked status of the failed exporter
    installation; the evaluator is not run (no tool check follows). *)
Theorem install_exporter_failure_blocks
    (self : Charm) (ev : EventBase) (w w2 : World) (msg : string)
    (params : list (string * string)) :
  tool_install (ext self) (calls ToolInstall w) = Ok (true, msg) ->
  get_redfish_conn_params self
    (mkWorld (mkStored (exporter_installed (stored w)) true)
             (MaintenanceStatus "Installing exporter...")
             (trace w ++ [ToolInstall]))
  = (Ok params, w2) ->
  exporter_install (ext self) (calls ExporterInstall w2) = Ok false ->
  exists w',
    _on_install_or_upgrade self ev w = (Ok tt, w') /\
    resource_installed (stored w') = true /\
    exporter_installed (stored w') = false /\
    unit_status w'
    = BlockedStatus "Failed to install exporter, please refer to `juju debug-log`" /\
    trace w' = (trace w2 ++ [ExporterInstall])%list /\
    calls ToolCheckInstalled w' = calls ToolCheckInstalled w.
Proof.
  intros Htool Hparams0 Hinst.
  assert (Hparams : get_redfish_conn_params self
    (set_unit_status (MaintenanceStatus "Installing exporter...")
       (set_resource_installed true
          (log_call ToolInstall
             (set_unit_status (MaintenanceStatus "Installing resources...") w))))
    = (Ok params, w2)) by exact Hparams0.
  pose proof (get_redfish_conn_params_frames self
    (set_unit_status (MaintenanceStatus "Installing exporter...")
       (set_resource_installed true
          (log_call ToolInstall
             (set_unit_status (MaintenanceStatus "Installing resources...") w)))))
    as Hfr.
  simpl in Hfr. rewrite Hparams in Hfr. cbn [snd] in Hfr.
  eexists. split.
  - unfold _on_install_or_upgrade, bind at 1, set_status at 1, modify at 1.
    unfold bind at 1, call at 1. step_calls. rewrite Htool.
    unfold bind at 1, modify at 1. cbn [negb].
    unfold bind at 1, set_status at 1, modify at 1.
    unfold bind at 1. rewrite Hparams.
    unfold bind at 1, call at 1. rewrite Hinst.
    unfold bind at 1, modify at 1. cbn [negb].
    unfold set_status, modify. reflexivity.
  - cbn [stored unit_status trace set_unit_status set_exporter_installed log_call
         resource_installed exporter_installed].
    rewrite (only_calls_stored _ _ _ Hfr).
    repeat split.
    change (calls ToolCheckInstalled (log_call ExporterInstall w2)
            = calls ToolCheckInstalled w).
    step_calls.
    rewrite (only_calls_calls _ _ _ ToolCheckInstalled Hfr eq_refl).
    step_calls. reflexivity.
Qed.

Lemma install_exporter_failure_blocks_witness :
  exists w',
    _on_install_or_upgrade
      (sample_charm 1 (sample_config 8080 "info") exporter_install_fails_ext)
      sample_event fresh_world = (Ok tt, w') /\
    resource_installed (stored w') = true /\
    exporter_installed (stored w') = false /\
    unit_status w'
    = BlockedStatus "Failed to install exporter, please refer to `juju debug-log`" /\
    trace w' = ([ToolInstall; BmcHwVerifier] ++ [ExporterInstall])%list /\
    calls ToolCheckInstalled w' = calls ToolCheckInstalled fresh_world.
Proof.
  apply (install_exporter_failure_blocks
           (sample_charm 1 (sample_config 8080 "info") exporter_install_fails_ext)
           sample_event fresh_world
           (mkWorld (mkStored false true)
                    (MaintenanceStatus "Installing exporter...")
                    [ToolInstall; BmcHwVerifier])
           "" []); reflexivity.
Defined.

(** X7: in every environment and however the install handler ends (it may
    raise), a unit whose exporter flag was false before the call has
    [exporter_installed] true afterwards only together with
    [resource_installed] true. *)
Theorem install_exporter_flag_implies_resource_flag
    (self : Charm) (ev : EventBase) (w : World) :
  exporter_installed (stored w) = false ->
  exporter_installed (stored (snd (_on_install_or_upgrade self ev w))) = true ->
  resource_installed (stored (snd (_on_install_or_upgrade self ev w))) = true.
Proof.
  intros Hw.
  assert (Hout : forall out,
            _on_install_or_upgrade self ev w = out ->
            exporter_installed (stored (snd out)) = true ->
            resource_installed (stored (snd out)) = true);
    [| now apply Hout].
  intros out.
  unfold _on_install_or_upgrade, bind at 1, set_status at 1, modify at 1.
  unfold bind at 1, call at 1. step_calls.
  destruct (tool_install (ext self) (calls ToolInstall w)) as [[installed msg] | e].
  2:{ intros <-. cbn. congruence. }
  unfold bind at 1, modify at 1.
  destruct installed; cbn [negb].
  2:{ intros <-. cbn. congruence. }
  unfold bind at 1, set_status at 1, modify at 1.
  set (w1 := set_unit_status _ (set_resource_installed true _)).
  pose proof (get_redfish_conn_params_frames self w1) as Hfr. simpl in Hfr.
  unfold bind at 1.
  destruct (get_redfish_conn_params self w1) as [[params | e] w2]; cbn [snd] in Hfr.
  2:{ intros <-. cbn [snd]. rewrite (only_calls_stored _ _ _ Hfr).
      intros _. reflexivity. }
  unfold bind at 1, call at 1.
  destruct (exporter_install (ext self) (calls ExporterInstall w2)) as [success | e].
  2:{ intros <-. cbn [snd log_call stored]. rewrite (only_calls_stored _ _ _ Hfr).
      intros _. reflexivity. }
  unfold bind at 1, modify at 1.
  destruct success; cbn [negb].
  - intros <-. rewrite keeps_flags_update_status.
    cbn [set_exporter_installed log_call stored resource_installed].
    rewrite (only_calls_stored _ _ _ Hfr). intros _. reflexivity.
  - intros <-. cbn. discriminate.
Qed.

Lemma install_exporter_flag_implies_resource_flag_witness :
  resource_installed
    (stored (snd (_on_install_or_upgrade
                    (sample_charm 1 (sample_config 8080 "info") healthy_ext)
                    sample_event fresh_world))) = true.
Proof.
  apply (install_exporter_flag_implies_resource_flag
           (sample_charm 1 (sample_config 8080 "info") healthy_ext)
           sample_event fresh_world); reflexivity.
Defined.

(** ** Relation events *)

(** X8: while either persisted flag is false, a joining cos-agent relation
    is only deferred: the exporter is neither enabled nor started, no status
    is evaluated, and the handler returns at once. *)
Theorem relation_joined_defers_until_installed
    (self : Charm) (ev : EventBase) (w : World) :
  resource_installed (stored w) = false \/ exporter_installed (stored w) = false ->
  _on_cos_agent_relation_joined self ev w = (Ok tt, log_call EventDefer w).
Proof.
  intros Hflags.
  unfold _on_cos_agent_relation_joined, bind, get_stored.
  destruct Hflags as [-> | ->]; cbn [negb orb]; [| rewrite orb_true_r]; reflexivity.
Qed.

Lemma relation_joined_defers_until_installed_witness :
  _on_cos_agent_relation_joined
    (sample_charm 1 (sample_config 8080 "info") healthy_ext)
    sample_event failed_install_world
  = (Ok tt, log_call EventDefer failed_install_world).
Proof.
  apply (relation_joined_defers_until_installed
           (sample_charm 1 (sample_config 8080 "info") healthy_ext)
           sample_event failed_install_world).
  left. reflexivity.
Defined.

(** X9: with both flags true, a joining relation enables the exporter
    service, then starts it, then evaluates the status in the resulting
    world; when enabling raises, the service is not started and no status is
    written. *)
Theorem relation_joined_enables_then_starts
    (self : Charm) (ev : EventBase) (w : World) :
  resource_installed (stored w) = true ->
  exporter_installed (stored w) = true ->
  (exporter_enable (ext self) (calls ExporterEnable w) = Ok tt ->
   exporter_start (ext self) (calls ExporterStart w) = Ok tt ->
   _on_cos_agent_relation_joined self ev w
   = _on_update_status self ev (after_calls [ExporterEnable; ExporterStart] w)) /\
  (forall e,
     exporter_enable (ext self) (calls ExporterEnable w) = Raise e ->
     _on_cos_agent_relation_joined self ev w = (Raise e, log_call ExporterEnable w)).
Proof.
  intros Hres Hexp. split.
  - intros Hen Hstart.
    unfold _on_cos_agent_relation_joined, bind at 1, get_stored.
    rewrite Hres, Hexp. cbn [negb orb].
    unfold bind at 1, call at 1. rewrite Hen.
    unfold bind at 1, call at 1. step_calls. rewrite Hstart.
    rewrite !log_call_after_calls, after_calls_app. reflexivity.
  - intros e Hen.
    unfold _on_cos_agent_relation_joined, bind at 1, get_stored.
    rewrite Hres, Hexp. cbn [negb orb].
    unfold bind at 1, call at 1. now rewrite Hen.
Qed.

Lemma relation_joined_enables_then_starts_witness :
  _on_cos_agent_relation_joined
    (sample_charm 1 (sample_config 8080 "info") healthy_ext)
    sample_event installed_world
  = _on_update_status
      (sample_charm 1 (sample_config 8080 "info") healthy_ext)
      sample_event (after_calls [ExporterEnable; ExporterStart] installed_world).
Proof.
  apply (proj1 (relation_joined_enables_then_starts
           (sample_charm 1 (sample_config 8080 "info") healthy_ext)
           sample_event installed_world eq_refl eq_refl)); reflexivity.
Defined.

(** X10: when the last cos-agent relation departs from an installed unit,
    the exporter service is stopped, then disabled, and the status becomes
    Blocked for the missing relation; when the exporter was never installed
    the service is not touched and the handler is the evaluator alone. *)
Theorem relation_departed_stops_exporter
    (self : Charm) (ev : EventBase) (w : World) :
  (exporter_installed (stored w) = true ->
   resource_installed (stored w) = true ->
   num_cos_agent_relations self = 0%nat ->
   exporter_stop (ext self) (calls ExporterStop w) = Ok tt ->
   exporter_disable (ext self) (calls ExporterDisable w) = Ok tt ->
   _on_cos_agent_relation_departed self ev w
   = (Ok tt, set_unit_status (BlockedStatus "Missing relation: [cos-agent]")
               (after_calls [ExporterStop; ExporterDisable] w))) /\
  (exporter_installed (stored w) = false ->
   _on_cos_agent_relation_departed self ev w = _on_update_status self ev w).
Proof.
  split.
  - intros Hexp Hres Hnum Hstop Hdis.
    unfold _on_cos_agent_relation_departed, bind at 1, get_stored.
    rewrite Hexp.
    unfold bind at 1. unfold bind at 1, call at 1. rewrite Hstop.
    unfold call at 1. step_calls. rewrite Hdis.
    rewrite !log_call_after_calls, after_calls_app.
    now apply update_status_no_relation.
  - intros Hexp.
    unfold _on_cos_agent_relation_departed, bind at 1, get_stored.
    rewrite Hexp. reflexivity.
Qed.

Lemma relation_departed_stops_exporter_witness :
  _on_cos_agent_relation_departed
    (sample_charm 0 (sample_config 8080 "info") healthy_ext)
    sample_event installed_world
  = (Ok tt, set_unit_status (BlockedStatus "Missing relation: [cos-agent]")
              (after_calls [ExporterStop; ExporterDisable] installed_world)).
Proof.
  apply (proj1 (relation_departed_stops_exporter
           (sample_charm 0 (sample_config 8080 "info") healthy_ext)
           sample_event installed_world)); reflexivity.
Defined.

(** ** The persisted flags are written by install and remove only *)

Lemma keeps_flags_config_changed (self : Charm) (ev : EventBase) :
  keeps_flags (_on_config_changed self ev).
Proof.
  unfold _on_config_changed, defer. repeat keeps_flags_step.
Qed.

Lemma keeps_flags_relation_joined (self : Charm) (ev : EventBase) :
  keeps_flags (_on_cos_agent_relation_joined self ev).
Proof.
  unfold _on_cos_agent_relation_joined, defer. repeat keeps_flags_step.
Qed.

Lemma keeps_flags_relation_departed (self : Charm) (ev : EventBase) :
  keeps_flags (_on_cos_agent_relation_departed self ev).
Proof.
  unfold _on_cos_agent_relation_departed. repeat keeps_flags_step.
Qed.

(** X11: in every environment and however they end, the update-status,
    config-changed, relation-joined and relation-departed handlers leave
    both persisted flags as they found them. *)
Theorem reconciliation_keeps_flags (self : Charm) (ev : EventBase) (w : World) :
  stored (snd (_on_update_status self ev w)) = stored w /\
  stored (snd (_on_config_changed self ev w)) = stored w /\
  stored (snd (_on_cos_agent_relation_joined self ev w)) = stored w /\
  stored (snd (_on_cos_agent_relation_departed self ev w)) = stored w.
Proof.
  repeat split.
  - apply keeps_flags_update_status.
  - apply keeps_flags_config_changed.
  - apply keeps_flags_relation_joined.
  - apply keeps_flags_relation_departed.
Qed.

(** ** Configuration changes on an installed unit *)

(** X12: on an installed unit with a relation, [_on_config_changed]
    validates, then renders the exporter configuration, then restarts the
    exporter once, then evaluates the status, and stops at the first step
    that fails: an invalid configuration gives Blocked with the validator's
    reason before anything is rendered, and a failed rendering gives Blocked
    without a restart. *)
Theorem config_changed_stops_at_first_failure
    (self : Charm) (ev : EventBase) (w w1 : World) (valid : bool) (reason : string) :
  resource_installed (stored w) = true ->
  exporter_enabled self = true ->
  validate_exporter_configs self w = (Ok (valid, reason), w1) ->
  (valid = false ->
   _on_config_changed self ev w
   = (Ok tt, set_unit_status (BlockedStatus reason) w1)) /\
  (valid = true ->
   forall params w2 rendered,
     get_redfish_conn_params self w1 = (Ok params, w2) ->
     template_render_config (ext self) (calls RenderConfig w2) = Ok rendered ->
     (rendered = false ->
      _on_config_changed self ev w
      = (Ok tt, set_unit_status
                  (BlockedStatus
                     "Failed to configure exporter, please check if the server is healthy.")
                  (log_call RenderConfig w2))) /\
     (rendered = true ->
      exporter_restart (ext self) (calls ExporterRestart w2) = Ok tt ->
      _on_config_changed self ev w
      = _on_update_status self ev
          (after_calls [RenderConfig; ExporterRestart] w2))).
Proof.
  intros Hres Hen Hval.
  assert (Hstart : _on_config_changed self ev w
    = (let (success, message) := (valid, reason) in
       if negb success then set_status (BlockedStatus message)
       else
         _ <- get_redfish_conn_params self ;;
         success0 <- call RenderConfig (template_render_config (ext self)) ;;
         if negb success0 then
           set_status (BlockedStatus
             "Failed to configure exporter, please check if the server is healthy.")
         else
           call ExporterRestart (exporter_restart (ext self)) ;;
           _on_update_status self ev) w1).
  { unfold _on_config_changed, bind at 1, get_stored. rewrite Hres. cbn [negb].
    unfold bind at 1, ret at 1. rewrite Hen.
    unfold bind at 1. rewrite Hval. reflexivity. }
  rewrite Hstart. clear Hstart. split.
  - intros ->. reflexivity.
  - intros -> params w2 rendered Hparams Hrender. cbn [negb].
    split; intros ->; [| intros Hrestart];
      unfold bind at 1; rewrite Hparams;
      unfold bind at 1, call at 1; rewrite Hrender; cbn [negb].
    + reflexivity.
    + unfold bind at 1, call at 1. step_calls. rewrite Hrestart.
      rewrite !log_call_after_calls, after_calls_app. reflexivity.
Qed.

Lemma config_changed_stops_at_first_failure_witness :
  _on_config_changed
    (sample_charm 1 (sample_config 8080 "info") render_fails_ext)
    sample_event installed_world
  = (Ok tt, set_unit_status
              (BlockedStatus
                 "Failed to configure exporter, please check if the server is healthy.")
              (after_calls [BmcHwVerifier; BmcHwVerifier; RenderConfig]
                           installed_world)).
Proof.
  apply (proj1 (proj2 (config_changed_stops_at_first_failure
           (sample_charm 1 (sample_config 8080 "info") render_fails_ext)
           sample_event installed_world (log_call BmcHwVerifier installed_world)
           true "Exporter config is valid." eq_refl eq_refl eq_refl) eq_refl
           [] (after_calls [BmcHwVerifier; BmcHwVerifier] installed_world) false
           eq_refl eq_refl)); reflexivity.
Defined.

(** X13: on an installed unit without a cos-agent relation a configuration
    change validates nothing and renders nothing: whatever the options are,
    the only effect is the Blocked status for the missing relation. *)
Theorem config_changed_without_relation
    (self : Charm) (ev : EventBase) (w : World) :
  resource_installed (stored w) = true ->
  num_cos_agent_relations self = 0%nat ->
  _on_config_changed self ev w
  = (Ok tt, set_unit_status (BlockedStatus "Missing relation: [cos-agent]") w).
Proof.
  intros Hres Hnum.
  unfold _on_config_changed, bind at 1, get_stored. rewrite Hres. cbn [negb].
  unfold bind at 1, ret at 1. unfold exporter_enabled at 1. rewrite Hnum.
  cbn [Nat.eqb negb].
  now apply update_status_no_relation.
Qed.

Lemma config_changed_without_relation_witness :
  _on_config_changed
    (sample_charm 0 (sample_config 0 "verbose") healthy_ext)
    sample_event installed_world
  = (Ok tt, set_unit_status (BlockedStatus "Missing relation: [cos-agent]")
              installed_world).
Proof.
  apply (config_changed_without_relation
           (sample_charm 0 (sample_config 0 "verbose") healthy_ext)
           sample_event installed_world); reflexivity.
Defined.

(** ** Relation count *)





(** X15: the two relation properties split the relation counts in three:
    not enabled exactly at 0, too many exactly above 1, so that a charm is
    enabled without too many relations exactly when it has one relation. *)
Theorem relation_cardinality (self : Charm) :
  (exporter_enabled self = false <-> num_cos_agent_relations self = 0%nat) /\
  (too_many_cos_agent_relations self = true <->
   (1 < num_cos_agent_relations self)%nat) /\
  (exporter_enabled self = true /\ too_many_cos_agent_relations self = false <->
   num_cos_agent_relations self = 1%nat) /\
  (too_many_cos_agent_relations self = true -> exporter_enabled self = true).
Proof.
  unfold exporter_enabled, too_many_cos_agent_relations.
  destruct (Nat.eqb_spec (num_cos_agent_relations self) 0);
    destruct (Nat.ltb_spec 1 (num_cos_agent_relations self));
    cbn [negb]; repeat split; intros; try lia; try congruence;
    try (destruct H; congruence).
Qed.

(** ** Log level *)




(** ** Redfish connection parameters *)

(** X17: when the BMC verifier and the address lookup return,
    [get_redfish_conn_params] returns the empty dictionary exactly when
    REDFISH is not among the tools, and then the BMC address is not looked
    up; otherwise the dictionary read back with [get] gives the https URL of
    the address and the two configured credentials, an absent option
    reading as the empty string. *)
Theorem conn_params_empty_iff_unavailable
    (self : Charm) (w : World) (tools : list HWTool) (address : string) :
  bmc_hw_verifier (ext self) (calls BmcHwVerifier w) = Ok tools ->
  get_bmc_address (ext self) (calls GetBmcAddress w) = Ok address ->
  exists d w',
    get_redfish_conn_params self w = (Ok d, w') /\
    (dict_is_empty d = true <-> existsb (HWTool_eqb REDFISH) tools = false) /\
    (existsb (HWTool_eqb REDFISH) tools = false ->
       w' = log_call BmcHwVerifier w /\
       calls GetBmcAddress w' = calls GetBmcAddress w) /\
    (existsb (HWTool_eqb REDFISH) tools = true ->
       dict_get d "host" "" = ("https://" ++ address)%string /\
       dict_get d "username" ""
       = match redfish_username (config (model self)) with
         | Some u => u | None => "" end /\
       dict_get d "password" ""
       = match redfish_password (config (model self)) with
         | Some p => p | None => "" end).
Proof.
  intros Hbmc Haddr.
  unfold get_redfish_conn_params, bind, call. rewrite Hbmc.
  destruct (existsb (HWTool_eqb REDFISH) tools) eqn:Hex; cbn [negb].
  - step_calls. rewrite Haddr. unfold ret.
    eexists. eexists. split; [reflexivity |]. split; [| split].
    + cbn. split; discriminate.
    + discriminate.
    + intros _. repeat split.
  - unfold ret. eexists. eexists. split; [reflexivity |]. split; [| split].
    + cbn. tauto.
    + intros _. split; [reflexivity |]. now step_calls.
    + discriminate.
Qed.

Lemma conn_params_empty_iff_unavailable_witness :
  exists d w',
    get_redfish_conn_params
      (charm_init (mkModel (mkConfig 8080 "info" 10 (Some "admin") None) [])
                  (redfish_ext (Ok tt)) sample_consts)
      installed_world = (Ok d, w') /\
    (dict_is_empty d = true <->
     existsb (HWTool_eqb REDFISH) [OtherTool "ipmi"; REDFISH] = false) /\
    (existsb (HWTool_eqb REDFISH) [OtherTool "ipmi"; REDFISH] = false ->
       w' = log_call BmcHwVerifier installed_world /\
       calls GetBmcAddress w' = calls GetBmcAddress installed_world) /\
    (existsb (HWTool_eqb REDFISH) [OtherTool "ipmi"; REDFISH] = true ->
       dict_get d "host" "" = "https://10.0.0.1" /\
       dict_get d "username" "" = "admin" /\
       dict_get d "password" "" = "").
Proof.
  apply (conn_params_empty_iff_unavailable
           (charm_init (mkModel (mkConfig 8080 "info" 10 (Some "admin") None) [])
                       (redfish_ext (Ok tt)) sample_consts)
           installed_world [OtherTool "ipmi"; REDFISH] "10.0.0.1");
    reflexivity.
Defined.

(** X18: when the BMC verifier and the address lookup return, the
    credential check returns [None] exactly when REDFISH is not among the
    tools: with redfish present every returned value is [True] or [False]. *)
Theorem credential_check_none_iff_unavailable
    (self : Charm) (w w' : World) (tools : list HWTool) (address : string)
    (valid : option bool) :
  bmc_hw_verifier (ext self) (calls BmcHwVerifier w) = Ok tools ->
  get_bmc_address (ext self) (calls GetBmcAddress w) = Ok address ->
  redfish_conn_params_valid self w = (Ok valid, w') ->
  (valid = None <-> existsb (HWTool_eqb REDFISH) tools = false).
Proof.
  intros Hbmc Haddr.
  destruct (existsb (HWTool_eqb REDFISH) tools) eqn:Hex.
  - destruct (redfish_client (ext self) (calls RedfishClient w)) as [[] | e] eqn:Hcli.
    + rewrite (redfish_conn_params_valid_session self w tools address) by assumption.
      unfold session_outcome.
      destruct (redfish_logout (ext self) (calls RedfishLogout w)) as [[] | e'];
        [| discriminate].
      destruct (redfish_login (ext self) (calls RedfishLogin w)) as [[] | e].
      * intros [= <- _]. split; discriminate.
      * destruct (is_Exception e); [| discriminate].
        intros [= <- _]. split; discriminate.
    + rewrite (no_client_no_logout self w tools address e) by assumption.
      destruct (is_Exception e); [| discriminate].
      intros [= <- _]. split; discriminate.
  - rewrite (redfish_conn_params_valid_unavailable self w tools) by assumption.
    intros [= <- _]. tauto.
Qed.

Lemma credential_check_none_iff_unavailable_witness :
  Some true = None <->
  existsb (HWTool_eqb REDFISH) [OtherTool "ipmi"; REDFISH] = false.
Proof.
  apply (credential_check_none_iff_unavailable
           (sample_charm 1 (sample_config 8080 "info") (redfish_ext (Ok tt)))
           installed_world
           (after_calls [BmcHwVerifier; GetBmcAddress; RedfishClient;
                         RedfishLogin; RedfishLogout] installed_world)
           [OtherTool "ipmi"; REDFISH] "10.0.0.1" (Some true));
    reflexivity.
Defined.

(** X19: with redfish present, any error while creating the client or
    while logging in (a refused connection or a timeout as much as refused
    credentials) makes the credential check report [False], so that a
    configuration with a valid port and level is refused with the redfish
    credentials message. *)
Theorem connection_error_reported_as_invalid_credentials
    (self : Charm) (w : World) (tools : list HWTool) (address : string) (e : exn) :
  port_in_range (exporter_port (config (model self))) = true ->
  level_allowed (exporter_log_level (config (model self))) = true ->
  bmc_hw_verifier (ext self) (calls BmcHwVerifier w) = Ok tools ->
  existsb (HWTool_eqb REDFISH) tools = true ->
  get_bmc_address (ext self) (calls GetBmcAddress w) = Ok address ->
  is_Exception e = true ->
  redfish_client (ext self) (calls RedfishClient w) = Raise e \/
  (redfish_client (ext self) (calls RedfishClient w) = Ok tt /\
   redfish_login (ext self) (calls RedfishLogin w) = Raise e /\
   redfish_logout (ext self) (calls RedfishLogout w) = Ok tt) ->
  fst (redfish_conn_params_valid self w) = Ok (Some false) /\
  fst (validate_exporter_configs self w)
  = Ok (false, "Invalid config: 'redfish-username' or 'redfish-password'").
Proof.
  intros Hp Hl Hbmc Hex Haddr Hexc Hcase.
  assert (Hv : fst (redfish_conn_params_valid self w) = Ok (Some false)).
  { destruct Hcase as [Hcli | (Hcli & Hlogin & Hlogout)].
    - rewrite (no_client_no_logout self w tools address e) by assumption.
      cbn [fst]. now rewrite Hexc.
    - rewrite (redfish_conn_params_valid_session self w tools address) by assumption.
      cbn [fst]. rewrite Hlogin, Hlogout. cbn [session_outcome]. now rewrite Hexc. }
  split; [exact Hv |].
  unfold validate_exporter_configs. rewrite Hp, Hl. cbn [negb].
  unfold bind.
  destruct (redfish_conn_params_valid self w) as [r w']. cbn [fst] in Hv.
  rewrite Hv. reflexivity.
Qed.

Lemma connection_error_reported_as_invalid_credentials_witness :
  fst (redfish_conn_params_valid
         (sample_charm 1 (sample_config 8080 "info")
            (redfish_ext (Raise (OtherException "ConnectionError"))))
         installed_world) = Ok (Some false) /\
  fst (validate_exporter_configs
         (sample_charm 1 (sample_config 8080 "info")
            (redfish_ext (Raise (OtherException "ConnectionError"))))
         installed_world)
  = Ok (false, "Invalid config: 'redfish-username' or 'redfish-password'").
Proof.
  apply (connection_error_reported_as_invalid_credentials
           (sample_charm 1 (sample_config 8080 "info")
              (redfish_ext (Raise (OtherException "ConnectionError"))))
           installed_world [OtherTool "ipmi"; REDFISH] "10.0.0.1"
           (OtherException "ConnectionError")); try reflexivity.
  right. repeat split.
Defined.

(** ** What the evaluator and the validator never do *)

(** X20: the evaluator writes Active only when every check passed: if the
    status after an evaluation is Active and was not the status before it,
    then the resources are installed, there is exactly one cos-agent
    relation, the configuration is valid, the tools are present, and the
    message is "Unit is ready". *)
Theorem active_only_when_all_checks_pass
    (self : Charm) (ev : EventBase) (w : World) (message : string) :
  unit_status (snd (_on_update_status self ev w)) = ActiveStatus message ->
  unit_status w <> ActiveStatus message ->
  resource_installed (stored w) = true /\
  num_cos_agent_relations self = 1%nat /\
  (exists reason, fst (validate_exporter_configs self w) = Ok (true, reason)) /\
  (exists msg, tool_check_installed (ext self) (calls ToolCheckInstalled w)
               = Ok (true, msg)) /\
  message = "Unit is ready".
Proof.
  destruct (update_status_effect self ev w) as (_ & ->).
  unfold status_rule, observed.
  cbn [relationCount configValid toolsOk exporterHealthy].
  intros Hactive Hbefore.
  destruct (resource_installed (stored w)); cbn [negb] in Hactive; [| congruence].
  destruct (num_cos_agent_relations self) as [| [| k]];
    cbn [Nat.eqb Nat.ltb Nat.leb] in Hactive; try discriminate.
  destruct (fst (validate_exporter_configs self w)) as [[[|] reason] | e];
    try discriminate; try congruence.
  destruct (tool_check_installed (ext self) (calls ToolCheckInstalled w))
    as [[[|] msg] | e]; try discriminate; try congruence.
  assert (Hmsg : message = "Unit is ready").
  { destruct (exporter_check_health (ext self) (calls ExporterCheckHealth w))
      as [[|] | e]; try congruence.
    destruct (fst (restart_exporter self w)); congruence. }
  repeat split; eauto.
Qed.

Lemma active_only_when_all_checks_pass_witness :
  resource_installed (stored installed_world) = true /\
  num_cos_agent_relations
    (sample_charm 1 (sample_config 8080 "info") healthy_ext) = 1%nat /\
  (exists reason,
     fst (validate_exporter_configs
            (sample_charm 1 (sample_config 8080 "info") healthy_ext)
            installed_world) = Ok (true, reason)) /\
  (exists msg,
     tool_check_installed
       (ext (sample_charm 1 (sample_config 8080 "info") healthy_ext))
       (calls ToolCheckInstalled installed_world) = Ok (true, msg)) /\
  "Unit is ready" = "Unit is ready".
Proof.
  apply (active_only_when_all_checks_pass
           (sample_charm 1 (sample_config 8080 "info") healthy_ext)
           sample_event installed_world "Unit is ready").
  - reflexivity.
  - discriminate.
Defined.

(** X21: in every environment and however it ends, the configuration
    validation writes neither the unit status nor the persisted flags, and
    the only external calls it makes are those of the credential check (BMC
    verifier, BMC address, redfish client, login, logout): the count of any
    other call is unchanged. *)
Theorem validate_only_checks_credentials (self : Charm) (w : World) :
  let w' := snd (validate_exporter_configs self w) in
  unit_status w' = unit_status w /\
  stored w' = stored w /\
  (exists cs, trace w' = (trace w ++ cs)%list /\
              forallb credential_call cs = true) /\
  (forall c, credential_call c = false -> calls c w' = calls c w).
Proof.
  intros w'.
  pose proof (validate_exporter_configs_frames self w) as Hfr. simpl in Hfr.
  fold w' in Hfr.
  split; [eapply only_calls_unit_status; eassumption |].
  split; [eapply only_calls_stored; eassumption |].
  split.
  - destruct Hfr as (cs & Heq & Hcs). exists cs. rewrite Heq. now split.
  - intros c Hc. eapply only_calls_calls; eassumption.
Qed.

(** ** Removal when a collaborator raises *)

(** X22: if removing the tools raises, [_on_remove] raises the same
    exception with both flags untouched and without attempting the exporter
    uninstall; if the tools are removed and the exporter uninstall raises,
    [resource_installed] is already false and [exporter_installed] keeps its
    old value. *)
Theorem on_remove_when_a_step_raises
    (self : Charm) (ev : EventBase) (w : World) (e : exn) :
  (tool_remove (ext self) (calls ToolRemove w) = Raise e ->
   _on_remove self ev w = (Raise e, log_call ToolRemove w) /\
   stored (snd (_on_remove self ev w)) = stored w /\
   calls ExporterUninstall (snd (_on_remove self ev w))
   = calls ExporterUninstall w) /\
  (tool_remove (ext self) (calls ToolRemove w) = Ok tt ->
   exporter_uninstall (ext self) (calls ExporterUninstall w) = Raise e ->
   fst (_on_remove self ev w) = Raise e /\
   resource_installed (stored (snd (_on_remove self ev w))) = false /\
   exporter_installed (stored (snd (_on_remove self ev w)))
   = exporter_installed (stored w)).
Proof.
  split.
  - intros Hrm.
    assert (Hrun : _on_remove self ev w = (Raise e, log_call ToolRemove w)).
    { unfold _on_remove, bind, call. now rewrite Hrm. }
    rewrite Hrun. cbn [snd]. repeat split. now step_calls.
  - intros Hrm Hun.
    assert (Hrun : _on_remove self ev w
                   = (Raise e, log_call ExporterUninstall
                                 (set_resource_installed false
                                    (log_call ToolRemove w)))).
    { unfold _on_remove, bind, call, modify. rewrite Hrm.
      rewrite calls_set_resource_installed, calls_log_call_other by discriminate.
      now rewrite Hun. }
    rewrite Hrun. repeat split.
Qed.

Lemma on_remove_when_a_step_raises_witness :
  fst (_on_remove
         (sample_charm 1 (sample_config 8080 "info")
            (make_ext (Ok (true, "")) (fun _ => Ok true) (fun _ => Ok true)
               (fun _ => Ok tt) [] (Ok tt) (Ok tt) (Ok tt)
               (Raise (OtherException "CalledProcessError"))))
         sample_event installed_world)
  = Raise (OtherException "CalledProcessError") /\
  resource_installed
    (stored (snd (_on_remove
         (sample_charm 1 (sample_config 8080 "info")
            (make_ext (Ok (true, "")) (fun _ => Ok true) (fun _ => Ok true)
               (fun _ => Ok tt) [] (Ok tt) (Ok tt) (Ok tt)
               (Raise (OtherException "CalledProcessError"))))
         sample_event installed_world))) = false /\
  exporter_installed
    (stored (snd (_on_remove
         (sample_charm 1 (sample_config 8080 "info")
            (make_ext (Ok (true, "")) (fun _ => Ok true) (fun _ => Ok true)
               (fun _ => Ok tt) [] (Ok tt) (Ok tt) (Ok tt)
               (Raise (OtherException "CalledProcessError"))))
         sample_event installed_world)))
  = exporter_installed (stored installed_world).
Proof.
  apply (proj2 (on_remove_when_a_step_raises
           (sample_charm 1 (sample_config 8080 "info")
              (make_ext (Ok (true, "")) (fun _ => Ok true) (fun _ => Ok true)
                 (fun _ => Ok tt) [] (Ok tt) (Ok tt) (Ok tt)
                 (Raise (OtherException "CalledProcessError"))))
           sample_event installed_world (OtherException "CalledProcessError")));
    reflexivity.
Defined.

(** ** Handlers in sequence *)

Lemma relation_joined_defers_lemma
    (self : Charm) (ev : EventBase) (w : World) :
  resource_installed (stored w) = false \/ exporter_installed (stored w) = false ->
  _on_cos_agent_relation_joined self ev w = (Ok tt, log_call EventDefer w).
Proof.
  intros Hflags.
  unfold _on_cos_agent_relation_joined, bind, get_stored.
  destruct Hflags as [-> | ->]; cbn [negb orb]; [| rewrite orb_true_r]; reflexivity.
Qed.

Lemma calls_set_exporter_installed (c : Call) (b : bool) (w : World) :
  calls c (set_exporter_installed b w) = calls c w.
Proof. reflexivity. Qed.

Lemma validate_without_redfish
    (self : Charm) (w : World) (tools : list HWTool) :
  port_in_range (exporter_port (config (model self))) = true ->
  level_allowed (exporter_log_level (config (model self))) = true ->
  bmc_hw_verifier (ext self) (calls BmcHwVerifier w) = Ok tools ->
  existsb (HWTool_eqb REDFISH) tools = false ->
  validate_exporter_configs self w
  = (Ok (true, "Exporter config is valid."), log_call BmcHwVerifier w).
Proof.
  intros Hp Hl Hbmc Hno.
  unfold validate_exporter_configs. rewrite Hp, Hl. cbn [negb].
  unfold bind.
  now rewrite (redfish_conn_params_valid_unavailable self w tools Hbmc Hno).
Qed.

(** X23: a complete installation on a node without redfish: when the tools
    and the exporter install, there is one cos-agent relation, the port and
    the level are valid, the tools are present and the exporter is healthy,
    the install handler returns with both flags true and the status
    Active("Unit is ready"), after exactly the calls tool install, BMC
    verifier, exporter install, BMC verifier, tool check, health check. *)
Theorem install_success_reaches_active
    (self : Charm) (ev : EventBase) (w : World) (tools : list HWTool)
    (msg msg2 : string) :
  tool_install (ext self) (calls ToolInstall w) = Ok (true, msg) ->
  (forall k, bmc_hw_verifier (ext self) k = Ok tools) ->
  existsb (HWTool_eqb REDFISH) tools = false ->
  exporter_install (ext self) (calls ExporterInstall w) = Ok true ->
  num_cos_agent_relations self = 1%nat ->
  port_in_range (exporter_port (config (model self))) = true ->
  level_allowed (exporter_log_level (config (model self))) = true ->
  tool_check_installed (ext self) (calls ToolCheckInstalled w) = Ok (true, msg2) ->
  exporter_check_health (ext self) (calls ExporterCheckHealth w) = Ok true ->
  _on_install_or_upgrade self ev w
  = (Ok tt,
     mkWorld (mkStored true true) (ActiveStatus "Unit is ready")
             (trace w ++ [ToolInstall; BmcHwVerifier; ExporterInstall;
                          BmcHwVerifier; ToolCheckInstalled;
                          ExporterCheckHealth])).
Proof.
  intros Htool Hbmc Hno Hinst Hnum Hp Hl Hcheck Hhealth.
  unfold _on_install_or_upgrade, bind at 1, set_status at 1, modify at 1.
  unfold bind at 1, call at 1. step_calls. rewrite Htool.
  unfold bind at 1, modify at 1. cbn [negb].
  unfold bind at 1, set_status at 1, modify at 1.
  unfold bind at 1.
  rewrite (get_redfish_conn_params_unavailable self _ tools (Hbmc _) Hno).
  unfold bind at 1, call at 1.
  step_calls. cbn [calls set_resource_installed trace] in *.
  fold (calls ExporterInstall w). rewrite Hinst.
  unfold bind at 1, modify at 1. cbn [negb].
  match goal with
  | |- _on_update_status self ev ?w0 = _ =>
      rewrite (update_status_healthy self ev w0 (log_call BmcHwVerifier w0)
                 "Exporter config is valid." msg2)
  end.
  - unfold set_unit_status, set_exporter_installed, set_resource_installed,
      log_call. cbn [stored unit_status trace exporter_installed resource_installed].
    repeat rewrite <- app_assoc. reflexivity.
  - reflexivity.
  - exact Hnum.
  - apply (validate_without_redfish self _ tools); auto.
  - repeat (rewrite ?calls_set_exporter_installed; step_calls). exact Hcheck.
  - repeat (rewrite ?calls_set_exporter_installed; step_calls). exact Hhealth.
Qed.

Lemma install_success_reaches_active_witness :
  _on_install_or_upgrade
    (sample_charm 1 (sample_config 8080 "info") healthy_ext)
    sample_event fresh_world
  = (Ok tt,
     mkWorld (mkStored true true) (ActiveStatus "Unit is ready")
             (trace fresh_world ++ [ToolInstall; BmcHwVerifier; ExporterInstall;
                                    BmcHwVerifier; ToolCheckInstalled;
                                    ExporterCheckHealth])).
Proof.
  apply (install_success_reaches_active
           (sample_charm 1 (sample_config 8080 "info") healthy_ext)
           sample_event fresh_world [] "" ""); reflexivity.
Defined.

(** X24: after a removal whose two steps return, the unit is back to
    waiting for an installation: in any environment a later update-status
    evaluation changes nothing, and a joining relation is only deferred. *)
Theorem remove_then_reconcile_is_noop
    (self : Charm) (ev : EventBase) (w : World) (success : bool) :
  tool_remove (ext self) (calls ToolRemove w) = Ok tt ->
  exporter_uninstall (ext self) (calls ExporterUninstall w) = Ok success ->
  let w' := snd (_on_remove self ev w) in
  fst (_on_remove self ev w) = Ok tt /\
  forall self' ev',
    _on_update_status self' ev' w' = (Ok tt, w') /\
    _on_cos_agent_relation_joined self' ev' w' = (Ok tt, log_call EventDefer w').
Proof.
  intros Hrm Hun w'.
  assert (Hrun : _on_remove self ev w
                 = (Ok tt, set_exporter_installed (negb success)
                             (log_call ExporterUninstall
                                (set_resource_installed false
                                   (log_call ToolRemove w))))).
  { unfold _on_remove, bind, call, modify. rewrite Hrm.
    rewrite calls_set_resource_installed, calls_log_call_other by discriminate.
    now rewrite Hun. }
  subst w'. rewrite Hrun. cbn [fst snd]. split; [reflexivity |].
  intros self' ev'. split.
  - apply update_status_skips. reflexivity.
  - apply relation_joined_defers_lemma. left. reflexivity.
Qed.

Lemma remove_then_reconcile_is_noop_witness :
  fst (_on_remove (sample_charm 1 (sample_config 8080 "info") healthy_ext)
         sample_event installed_world) = Ok tt /\
  forall self' ev',
    _on_update_status self' ev'
      (snd (_on_remove (sample_charm 1 (sample_config 8080 "info") healthy_ext)
              sample_event installed_world))
    = (Ok tt,
       snd (_on_remove (sample_charm 1 (sample_config 8080 "info") healthy_ext)
              sample_event installed_world)) /\
    _on_cos_agent_relation_joined self' ev'
      (snd (_on_remove (sample_charm 1 (sample_config 8080 "info") healthy_ext)
              sample_event installed_world))
    = (Ok tt,
       log_call EventDefer
         (snd (_on_remove (sample_charm 1 (sample_config 8080 "info") healthy_ext)
                 sample_event installed_world))).
Proof.
  apply (remove_then_reconcile_is_noop
           (sample_charm 1 (sample_config 8080 "info") healthy_ext)
           sample_event installed_world true); reflexivity.
Defined.

Lemma relation_cardinality_witness :
  exporter_enabled (sample_charm 2 (sample_config 8080 "info") healthy_ext) = true.
Proof.
  apply (proj2 (proj2 (proj2 (relation_cardinality
           (sample_charm 2 (sample_config 8080 "info") healthy_ext))))).
  reflexivity.
Defined.


Lemma validate_only_checks_credentials_witness :
  calls ExporterRestart
    (snd (validate_exporter_configs
            (sample_charm 1 (sample_config 8080 "info") (redfish_ext (Ok tt)))
            installed_world))
  = calls ExporterRestart installed_world.
Proof.
  apply (proj2 (proj2 (proj2 (validate_only_checks_credentials
           (sample_charm 1 (sample_config 8080 "info") (redfish_ext (Ok tt)))
           installed_world))) ExporterRestart).
  reflexivity.
Defined.
